(** * SeeDot driver and predictor: a shallow embedding

    This development models two files of the SeeDot tool chain,

    - [tools/SeeDot/SeeDot-dev.py]       (class [MainDriver]), and
    - [tools/SeeDot/seedot/predictor.py] (class [Predictor]),

    as executable Rocq functions, and proves the properties their
    specification states about them.

    Python values are modelled as follows.  A [str] is a [string], read as a
    sequence of code points below 256.  An [int] is a [Z].  A [dict] with
    string keys ([os.environ]) and the file system (path to text) are
    [gmap string string].  Code that raises returns [Raise e]; code that
    touches the outside world threads an explicit state. *)

From Stdlib Require Import ZArith Lia List Ascii String Bool PrimFloat.
From stdpp Require Import base strings gmap list.

Local Open Scope Z_scope.

(** ** The part of the Python runtime the two files rely on *)

Module Py.

(** Exceptions raised by the modelled code, with the payload that the
    claims look at. *)
Inductive exn : Type :=
| FileNotFoundError (path : string)
| OSError (what : string)
| IndexError
| ValueError (arg : string)
| NameError (name : string)
| AssertionError
| TypeError
| KeyError (key : string)
| Exception (msg : string).

Inductive result (A : Type) : Type :=
| Ret (a : A)
| Raise (e : exn).
Arguments Ret {A} a.
Arguments Raise {A} e.

Definition returns {A} (r : result A) : bool :=
  match r with Ret _ => true | Raise _ => false end.

(** *** State and exception monad

    [M S A] is a computation over a world [S] that returns an [A] or
    raises; the world reached is kept in both cases (effects performed
    before an exception stay performed). *)
Definition M (S A : Type) : Type := S -> result A * S.

Definition ret {S A} (a : A) : M S A := fun s => (Ret a, s).

Definition raise {S A} (e : exn) : M S A := fun s => (Raise e, s).

Definition bind {S A B} (m : M S A) (k : A -> M S B) : M S B :=
  fun s =>
    match m s with
    | (Ret a, s') => k a s'
    | (Raise e, s') => (Raise e, s')
    end.

Definition get {S} : M S S := fun s => (Ret s, s).

Definition modify {S} (f : S -> S) : M S unit := fun s => (Ret tt, f s).

Definition lift {S A} (r : result A) : M S A := fun s => (r, s).

(** [for x in xs: body x], stopping at the first exception. *)
Fixpoint for_each {S A} (xs : list A) (body : A -> M S unit) : M S unit :=
  match xs with
  | [] => ret tt
  | x :: xs' => bind (body x) (fun _ => for_each xs' body)
  end.

(** *** [str] methods *)

Definition code (c : ascii) : N := N_of_ascii c.

(** [str.isspace] on one character, for code points below 256: the
    characters of bidirectional type WS, B or S, or of category Zs. *)
Definition isspace (c : ascii) : bool :=
  let n := code c in
  (((9 <=? n) && (n <=? 13)) || ((28 <=? n) && (n <=? 32))
   || (n =? 133) || (n =? 160))%N.

Fixpoint lstrip (s : string) : string :=
  match s with
  | EmptyString => EmptyString
  | String c s' => if isspace c then lstrip s' else s
  end.

Fixpoint rstrip (s : string) : string :=
  match s with
  | EmptyString => EmptyString
  | String c s' =>
      match rstrip s' with
      | EmptyString => if isspace c then EmptyString else String c EmptyString
      | r => String c r
      end
  end.

(** [s.strip()] *)
Definition strip (s : string) : string := rstrip (lstrip s).

(** [s.startswith(p)] *)
Fixpoint startswith (p s : string) : bool :=
  match p, s with
  | EmptyString, _ => true
  | String a p', String b s' => (Ascii.eqb a b && startswith p' s')%bool
  | String _ _, EmptyString => false
  end.

Fixpoint endswith_char (c : ascii) (s : string) : bool :=
  match s with
  | EmptyString => false
  | String d EmptyString => Ascii.eqb c d
  | String _ s' => endswith_char c s'
  end.

Definition LF : ascii := ascii_of_N 10.
Definition CR : ascii := ascii_of_N 13.

(** [file.readlines()] of a file opened in text mode with the default
    [newline=None]: the line ends ["\n"], ["\r"] and ["\r\n"] all end a
    line and are handed over as ["\n"]; every line keeps its line end,
    a last line without one is kept as it is. [cur] is the line read so
    far. *)
Fixpoint readlines_from (cur : string) (s : string) : list string :=
  match s with
  | EmptyString =>
      match cur with EmptyString => [] | _ => [cur] end
  | String c s' =>
      if Ascii.eqb c LF then
        (cur +:+ String LF EmptyString) :: readlines_from EmptyString s'
      else if Ascii.eqb c CR then
        match s' with
        | String d s'' =>
            if Ascii.eqb d LF
            then (cur +:+ String LF EmptyString)
                 :: readlines_from EmptyString s''
            else (cur +:+ String LF EmptyString)
                 :: readlines_from EmptyString s'
        | EmptyString => [cur +:+ String LF EmptyString]
        end
      else readlines_from (cur +:+ String c EmptyString) s'
  end.

Definition readlines (content : string) : list string :=
  readlines_from EmptyString content.

(** *** [posixpath.join]

    [os.path.join(a, *p)] on a POSIX host: a component that starts with
    the separator replaces what was joined so far; otherwise it is
    appended, after a separator unless the path so far is empty or ends
    with one. *)
Definition sep : ascii := "/"%char.

Definition posix_join_step (path b : string) : string :=
  if startswith (String sep EmptyString) b then b
  else if (String.eqb path EmptyString || endswith_char sep path)%bool
       then path +:+ b
       else path +:+ String sep b.

Definition posix_join (a : string) (p : list string) : string :=
  fold_left posix_join_step p a.

(** *** [repr] of a [str] and of a [list] of [str] *)

Fixpoint contains_char (c : ascii) (s : string) : bool :=
  match s with
  | EmptyString => false
  | String d s' => (Ascii.eqb c d || contains_char c s')%bool
  end.

Definition hex_digit (n : N) : ascii :=
  (if n <? 10 then ascii_of_N (48 + n) else ascii_of_N (87 + n))%N.

Definition squote : ascii := "'"%char.
Definition dquote : ascii := ascii_of_N 34.
Definition backslash : ascii := "\"%char.

(** The quote [repr] encloses a string in: double quotes exactly when the
    string holds a single quote and no double quote. *)
Definition repr_quote (s : string) : ascii :=
  if (contains_char squote s && negb (contains_char dquote s))%bool
  then dquote else squote.

(** Not printable below 256: the C0 and C1 controls, DEL, the no-break
    space and the soft hyphen. *)
Definition printable (c : ascii) : bool :=
  let n := code c in
  negb ((n <? 32) || ((127 <=? n) && (n <=? 160)) || (n =? 173))%N.

Definition repr_char (q c : ascii) : string :=
  if (Ascii.eqb c q || Ascii.eqb c backslash)%bool
  then String backslash (String c EmptyString)
  else if Ascii.eqb c (ascii_of_N 9) then String backslash "t"
  else if Ascii.eqb c LF then String backslash "n"
  else if Ascii.eqb c CR then String backslash "r"
  else if printable c then String c EmptyString
  else String backslash
         (String "x"%char
            (String (hex_digit (code c / 16)%N)
               (String (hex_digit (code c mod 16)%N) EmptyString))).

Fixpoint repr_body (q : ascii) (s : string) : string :=
  match s with
  | EmptyString => EmptyString
  | String c s' => repr_char q c +:+ repr_body q s'
  end.

(** [repr(s)] for a [str] *)
Definition repr_str (s : string) : string :=
  let q := repr_quote s in
  String q (repr_body q s +:+ String q EmptyString).

(** [", ".join(xs)] *)
Fixpoint join_comma (xs : list string) : string :=
  match xs with
  | [] => EmptyString
  | [x] => x
  | x :: xs' => x +:+ ", " +:+ join_comma xs'
  end.

(** [repr(l)], which is also [str(l)] and ["%s" % l], for a list of [str] *)
Definition repr_list (l : list string) : string :=
  "[" +:+ join_comma (map repr_str l) +:+ "]".

(** [s.upper()] on ASCII letters, which is all the level names given to
    it are made of; letters above 127 are left as they are. *)
Definition upper_char (c : ascii) : ascii :=
  let n := code c in
  (if (97 <=? n) && (n <=? 122) then ascii_of_N (n - 32) else c)%N.

Fixpoint upper (s : string) : string :=
  match s with
  | EmptyString => EmptyString
  | String c s' => String (upper_char c) (upper s')
  end.


End Py.

Module PyNotations.
Declare Scope py_scope.
Delimit Scope py_scope with py.
Notation "x <- m ;; k" := (Py.bind m (fun x => k))
  (at level 100, m at next level, right associativity) : py_scope.
Notation "m ;;; k" := (Py.bind m (fun _ => k))
  (at level 100, right associativity) : py_scope.
End PyNotations.
Import PyNotations.

(** ** [seedot/predictor.py] *)

Module Predictor.
Import Py.

(** The values of [seedot.common] that the predictor reads. [gccPath] is
    [None] or a string. *)
Record Common : Type := {
  msbuildPath : string;
  mingw : bool;
  gccPath : option string
}.

(** What the process runs on. [windows] is [Util.windows()];
    [os_path_join a p] is [os.path.join(a, *p)] ([posixpath] or [ntpath]);
    [environ] is [os.environ]; [float_of_str s] is [float(s)], [None] when
    it raises [ValueError]; [subprocess_call args env out files] runs the
    child process [args] with its standard output sent to the open file
    [out], in environment [env] ([None]: the parent's), and gives its return
    code together with the files it leaves behind, or raises when the
    program cannot be started. *)
Record Host (F : Type) : Type := {
  windows : bool;
  os_path_join : string -> list string -> string;
  environ : gmap string string;
  float_of_str : string -> option F;
  subprocess_call :
    list string -> option (gmap string string) -> string ->
    gmap string string -> result (Z * gmap string string)
}.
Arguments windows {F} _.
Arguments os_path_join {F} _ _ _.
Arguments environ {F} _.
Arguments float_of_str {F} _ _.
Arguments subprocess_call {F} _ _ _ _ _.

(** What the predictor does to the outside world, in the order it does it. *)
Inductive event : Type :=
| Makedirs (path : string)
| Print (text : string)
| OpenWrite (path : string)
| OpenRead (path : string)
| Call (args : list string) (env : option (gmap string string)).

Record World : Type := {
  files : gmap string string;
  trace : list event
}.

Definition emit (e : event) : M World unit :=
  modify (fun w => {| files := files w; trace := trace w ++ [e] |}).

Definition nl : string := String LF EmptyString.

(** [print(text)] and [print(text, end='')] *)
Definition print (text : string) : M World unit := emit (Print (text +:+ nl)).
Definition print_noend (text : string) : M World unit := emit (Print text).

Record Self : Type := {
  algo : string;
  version : string;
  datasetType : string;
  outputDir : string
}.

(** [Predictor.__init__]: [os.makedirs(outputDir, exist_ok=True)] raises
    [FileNotFoundError] for the empty path; its other failures (a file in
    the way, no permission) are not modelled. *)
Definition init (algo version datasetType outputDir : string) : M World Self :=
  if String.eqb outputDir EmptyString
  then raise (FileNotFoundError outputDir)
  else
    (emit (Makedirs outputDir) ;;;
     ret {| algo := algo; version := version; datasetType := datasetType;
            outputDir := outputDir |})%py.

(** [with open(logFile, 'w') as file: process = subprocess.call(args,
    stdout=file, env=env)]: the log file is created (or emptied) first,
    then the child runs. *)
Definition call_logged {F} (h : Host F) (logFile : string)
    (args : list string) (env : option (gmap string string)) : M World Z :=
  (emit (OpenWrite logFile) ;;;
   modify (fun w => {| files := <[logFile := EmptyString]> (files w);
                       trace := trace w |}) ;;;
   emit (Call args env) ;;;
   w <- get ;;
   match subprocess_call h args env logFile (files w) with
   | Ret (status, files') =>
       modify (fun w => {| files := files'; trace := trace w |}) ;;;
       ret status
   | Raise e => raise e
   end)%py.

(** The tail shared by the three build functions:
    [if process == 1: print("FAILED!!\n"); return False
     else: print("success"); return True] *)
Definition build_outcome (process : Z) : M World bool :=
  if process =? 1
  then (print ("FAILED!!" +:+ nl) ;;; ret false)%py
  else (print "success" ;;; ret true)%py.

Definition buildForWindows {F} (h : Host F) (c : Common) (self : Self)
    : M World bool :=
  (print_noend "Build..." ;;;
   let projFile := "Predictor.vcxproj" in
   let args := [msbuildPath c; projFile; "/t:Build";
                "/p:Configuration=Release"; "/p:Platform=x64"] in
   let logFile := os_path_join h (outputDir self) ["msbuild.txt"] in
   process <- call_logged h logFile args None ;;
   build_outcome process)%py.

Definition buildForLinux {F} (h : Host F) (self : Self) : M World bool :=
  (print_noend "Build..." ;;;
   let args := ["make"] in
   let logFile := os_path_join h (outputDir self) ["msbuild.txt"] in
   process <- call_logged h logFile args None ;;
   build_outcome process)%py.

(** Values a name of the module can be bound to. *)
Inductive pyval : Type :=
| PModule (name : string)
| PClass (name : string)
| PStr (s : string).

(** The names bound at the top level of [predictor.py]: its four imports
    and its one class. *)
Definition module_globals : list (string * pyval) :=
  [("os", PModule "os"); ("subprocess", PModule "subprocess");
   ("Common", PModule "seedot.common"); ("Util", PModule "seedot.util");
   ("Predictor", PClass "Predictor")].

Fixpoint lookup_name (name : string) (scope : list (string * pyval))
    : option pyval :=
  match scope with
  | [] => None
  | (n, v) :: scope' =>
      if String.eqb n name then Some v else lookup_name name scope'
  end.

(** Reading a bare name inside a method that does not assign it: the
    module's globals are searched (no builtin is called [gccPath]), and
    [NameError] is raised when the name is bound nowhere. *)
Definition load_global (name : string) : result pyval :=
  match lookup_name name module_globals with
  | Some v => Ret v
  | None => Raise (NameError name)
  end.

(** [v + s] for a string [s] *)
Definition add_str (v : pyval) (s : string) : result string :=
  match v with
  | PStr t => Ret (t +:+ s)
  | _ => Raise TypeError
  end.

(** [os.environ[key]] *)
Definition environ_item {F} (h : Host F) (key : string) : result string :=
  match environ h !! key with
  | Some v => Ret v
  | None => Raise (KeyError key)
  end.

(** Truth value of [(Common.gccPath is not None) and (Common.gccPath)] *)
Definition gccPath_set (c : Common) : bool :=
  match gccPath c with
  | None => false
  | Some g => negb (String.eqb g EmptyString)
  end.

(** [my_env = os.environ.copy()
     if (Common.gccPath is not None) and (Common.gccPath):
         my_env['PATH'] = gccPath+';'+os.environ['PATH']]
    The right-hand side reads the bare name [gccPath], then [';'], then
    [os.environ['PATH']], from left to right. *)
Definition mingw_env {F} (h : Host F) (c : Common)
    : result (gmap string string) :=
  let my_env := environ h in
  if gccPath_set c then
    match load_global "gccPath" with
    | Raise e => Raise e
    | Ret g =>
        match add_str g ";" with
        | Raise e => Raise e
        | Ret g' =>
            match environ_item h "PATH" with
            | Raise e => Raise e
            | Ret p => Ret (<["PATH" := g' +:+ p]> my_env)
            end
        end
    end
  else Ret my_env.

Definition buildForMingw {F} (h : Host F) (c : Common) (self : Self)
    : M World bool :=
  (my_env <- lift (mingw_env h c) ;;
   let args := ["mimg32-make.exe"] in
   let logFile := os_path_join h (outputDir self) ["gccbuild.txt"] in
   process <- call_logged h logFile args (Some my_env) ;;
   build_outcome process)%py.

Definition build {F} (h : Host F) (c : Common) (self : Self) : M World bool :=
  if windows h then
    if mingw c then buildForMingw h c self else buildForWindows h c self
  else buildForLinux h self.

(** [readStatsFile]: [open(statsFile, 'r')] raises [FileNotFoundError] for
    a missing file, [stats[0]] raises [IndexError] on an empty list, and
    [float] raises [ValueError] on a string that is no number. *)
Definition statsFile {F} (h : Host F) (self : Self) : string :=
  os_path_join h "output"
    [algo self +:+ "-" +:+ version self;
     "stats-" +:+ datasetType self +:+ ".txt"].

(** [content = file.readlines(); stats = [x.strip() for x in content];
    return float(stats[0])] on the text of the file. *)
Definition parse_stats {F} (h : Host F) (text : string) : result F :=
  let content := readlines text in
  let stats := map strip content in
  match stats with
  | [] => Raise IndexError
  | x :: _ =>
      match float_of_str h x with
      | Some f => Ret f
      | None => Raise (ValueError x)
      end
  end.

Definition readStatsFile {F} (h : Host F) (self : Self) : M World F :=
  (w <- get ;;
   match files w !! statsFile h self with
   | None => raise (FileNotFoundError (statsFile h self))
   | Some text =>
       emit (OpenRead (statsFile h self)) ;;;
       lift (parse_stats h text)
   end)%py.

(** The tail shared by the three execute functions:
    [if process == 1: print("FAILED!!\n"); return None
     else: print("success"); acc = self.readStatsFile(); return acc] *)
Definition execute_outcome {F} (h : Host F) (self : Self) (process : Z)
    : M World (option F) :=
  if process =? 1
  then (print ("FAILED!!" +:+ nl) ;;; ret None)%py
  else (print "success" ;;;
        acc <- readStatsFile h self ;;
        ret (Some acc))%py.

Definition execute_with {F} (h : Host F) (self : Self) (exeFile : string)
    : M World (option F) :=
  (print_noend "Execution..." ;;;
   let args := [exeFile; algo self; version self; datasetType self] in
   let logFile := os_path_join h (outputDir self) ["exec.txt"] in
   process <- call_logged h logFile args None ;;
   execute_outcome h self process)%py.

Definition executeForWindows {F} (h : Host F) (self : Self)
    : M World (option F) :=
  execute_with h self (os_path_join h "x64" ["Release"; "Predictor.exe"]).

Definition executeForLinux {F} (h : Host F) (self : Self)
    : M World (option F) :=
  execute_with h self (os_path_join h "./Predictor" []).

Definition executeForMingw {F} (h : Host F) (self : Self)
    : M World (option F) :=
  execute_with h self (os_path_join h "./Predictor.exe" []).

Definition execute {F} (h : Host F) (c : Common) (self : Self)
    : M World (option F) :=
  if windows h then
    if mingw c then executeForMingw h self else executeForWindows h self
  else executeForLinux h self.

(** [run]: [res = self.build(); if res == False: return None;
    acc = self.execute(); return acc] *)
Definition run {F} (h : Host F) (c : Common) (self : Self)
    : M World (option F) :=
  (res <- build h c self ;;
   if negb res then ret None
   else (acc <- execute h c self ;; ret acc))%py.

End Predictor.

(** ** [SeeDot-dev.py] *)

Module SeeDotDev.
Import Py.

(** The values of [seedot.config] that the driver reads. The module is
    taken as a parameter; [msbuildPathOptions] is a list. *)
Record Config : Type := {
  msbuildPathOptions : list string;
  wordLength : Z;
  Encoding_floatt : string;
  Source_onnx : string
}.

(** [class Dataset]: the two directory names the sweep uses. *)
Definition datasetProcessedDir : string := "datasets".
Definition modelProcessedDir : string := "model".

(** The value [argparse] leaves in an axis attribute: the string given on
    the command line, or the option's default, which may be a list. *)
Inductive argval : Type :=
| One (s : string)
| Many (l : list string).

(** [if not isinstance(x, list): x = [x]] *)
Definition as_list (v : argval) : list string :=
  match v with
  | One s => [s]
  | Many l => l
  end.

(** [self.args] as [parser.parse_args()] returns it. *)
Record RawArgs : Type := {
  raw_algo : argval;
  raw_encoding : argval;
  raw_dataset : argval;
  raw_datasetType : argval;
  raw_target : argval;
  raw_maximisingMetric : argval;
  raw_numOutputs : Z;
  raw_source : string;
  raw_max_scale_factor : option Z;
  raw_log : string;
  raw_load_sf : bool
}.

(** [self.args] after lines 100 to 111 of [parseArgs]. *)
Record Args : Type := {
  algo : list string;
  encoding : list string;
  dataset : list string;
  datasetType : list string;
  target : list string;
  maximisingMetric : list string;
  numOutputs : Z;
  source : string;
  max_scale_factor : option Z;
  log : string;
  load_sf : bool
}.

(** The normalisation of [parseArgs]; the scratch and output directories
    it sets up afterwards play no part in the sweep's enumeration. *)
Definition parseArgs (r : RawArgs) : Args :=
  {| algo := as_list (raw_algo r);
     encoding := as_list (raw_encoding r);
     dataset := as_list (raw_dataset r);
     datasetType := as_list (raw_datasetType r);
     target := as_list (raw_target r);
     maximisingMetric := as_list (raw_maximisingMetric r);
     numOutputs := raw_numOutputs r;
     source := raw_source r;
     max_scale_factor := raw_max_scale_factor r;
     log := raw_log r;
     load_sf := raw_load_sf r |}.

(** One tuple of the sweep:
    [algo, encoding, dataset, target, maximisingMetric, wordLength = iter] *)
Record Point : Type := {
  p_algo : string;
  p_encoding : string;
  p_dataset : string;
  p_target : string;
  p_maximisingMetric : string;
  p_wordLength : Z
}.

(** [itertools.product] of six iterables: the tuples of the nested loops
    [for a in as for b in bs ... for f in fs], the rightmost iterable
    advancing fastest. *)
Definition product6 {A B C D E G : Type}
    (la : list A) (lb : list B) (lc : list C) (ld : list D) (le : list E)
    (lg : list G) : list (A * B * C * D * E * G) :=
  flat_map (fun a =>
  flat_map (fun b =>
  flat_map (fun c =>
  flat_map (fun d =>
  flat_map (fun e =>
  map (fun g => (a, b, c, d, e, g)) lg) le) ld) lc) lb) la.

Definition point_of (t : string * string * string * string * string * Z)
    : Point :=
  let '(a, e, d, t, m, w) := t in
  {| p_algo := a; p_encoding := e; p_dataset := d; p_target := t;
     p_maximisingMetric := m; p_wordLength := w |}.

(** The tuples [runMainDriver] iterates over. *)
Definition sweep (a : Args) : list Point :=
  map point_of
    (product6 (algo a) (encoding a) (dataset a) (target a)
       (maximisingMetric a) [16]).

(** The arguments of [main.Main(...)], in the order of the call. *)
Record MainArgs : Type := {
  m_algo : string;
  m_encoding : string;
  m_target : string;
  m_trainingInput : string;
  m_testingInput : string;
  m_modelDir : string;
  m_sf : option Z;
  m_maximisingMetric : string;
  m_dataset : string;
  m_numOutputs : Z;
  m_source : string
}.

(** What the driver runs on. [main_run a] is [main.Main(...).run()] with
    the arguments [a]: it returns, or raises. [isfile] is
    [os.path.isfile]. *)
Record Host : Type := {
  windows : bool;
  os_path_join : string -> list string -> string;
  environ : gmap string string;
  isfile : string -> bool;
  main_run : MainArgs -> result unit
}.

Inductive event : Type :=
| Print (text : string)
| BasicConfig (level : string)
| Seterr
| MainRun (a : MainArgs).

(** The driver's world: [config.msbuildPath] ([None] until it is
    assigned) and what the driver did so far. *)
Record World : Type := {
  config_msbuildPath : option string;
  trace : list event
}.

Definition emit (e : event) : M World unit :=
  modify (fun w => {| config_msbuildPath := config_msbuildPath w;
                      trace := trace w ++ [e] |}).

Definition nl : string := String LF EmptyString.

Definition print (text : string) : M World unit := emit (Print (text +:+ nl)).

(** The loop of [checkMSBuildPath]: [found] and [config.msbuildPath] after
    the candidates [paths] were gone through. *)
Fixpoint checkMSBuildPath_loop (h : Host) (paths : list string)
    (found : bool) (msbuildPath : option string) : bool * option string :=
  match paths with
  | [] => (found, msbuildPath)
  | path :: paths' =>
      if isfile h path
      then checkMSBuildPath_loop h paths' true (Some path)
      else checkMSBuildPath_loop h paths' found msbuildPath
  end.

Definition not_found_message (cfg : Config) : string :=
  "Msbuild.exe not found at the following locations:" +:+ nl
  +:+ repr_list (msbuildPathOptions cfg) +:+ nl
  +:+ "Please change the path and run again".

Definition checkMSBuildPath (h : Host) (cfg : Config) : M World unit :=
  fun w =>
    let '(found, path) :=
      checkMSBuildPath_loop h (msbuildPathOptions cfg) false
        (config_msbuildPath w) in
    let w' := {| config_msbuildPath := path; trace := trace w |} in
    if negb found
    then (Raise (Exception (not_found_message cfg)), w')
    else (Ret tt, w').

(** [np.seterr(all='warn')] *)
Definition setGlobalFlags : M World unit := emit Seterr.

(** The level names [logging] knows. *)
Definition level_names : list string :=
  ["CRITICAL"; "FATAL"; "ERROR"; "WARN"; "WARNING"; "INFO"; "DEBUG";
   "NOTSET"].

(** [logging.basicConfig(level=os.environ.get("LOGLEVEL",
    self.args.log.upper()))] on a root logger that has no handler yet: a
    level name that [logging] does not know raises [ValueError]. *)
Definition log_level (h : Host) (a : Args) : string :=
  match environ h !! "LOGLEVEL" with
  | Some l => l
  | None => upper (log a)
  end.

Definition setLogLevel (h : Host) (a : Args) : M World unit :=
  let level := log_level h a in
  if existsb (String.eqb level) level_names
  then emit (BasicConfig level)
  else raise (ValueError level).

(** The [if]/[elif] chain inside the [try] of [runMainDriver]; the final
    [assert False] raises [AssertionError] (assertions are on, as they are
    unless Python is started with [-O]). *)
Definition derive_bitwidth (cfg : Config) (encoding : string)
    : result string :=
  if String.eqb encoding (Encoding_floatt cfg) then Ret "float"
  else if wordLength cfg =? 8 then Ret "int8"
  else if wordLength cfg =? 16 then Ret "int16"
  else if wordLength cfg =? 32 then Ret "int32"
  else Raise AssertionError.

(** The whole [try ... except Exception as _: assert self.args.load_sf ==
    False]: what this pass assigns to the local [bitwidth] ([None]: nothing;
    the variable is read nowhere), or the [AssertionError] of the
    handler. *)
Definition bitwidth_block (cfg : Config) (a : Args) (encoding : string)
    : result (option string) :=
  match derive_bitwidth cfg encoding with
  | Ret b => Ret (Some b)
  | Raise _ => if load_sf a then Raise AssertionError else Ret None
  end.

Definition banner_rule : string := "========================================".

(** The arguments the body of the loop hands to [main.Main]. *)
Definition main_args (h : Host) (cfg : Config) (a : Args) (p : Point)
    : MainArgs :=
  let datasetDir :=
    os_path_join h datasetProcessedDir [p_algo p; p_dataset p] in
  let modelDir := os_path_join h modelProcessedDir [p_algo p; p_dataset p] in
  let source_update :=
    if String.eqb (source a) (Source_onnx cfg) then "_onnx" else "" in
  let trainingInput :=
    os_path_join h datasetDir ["train" +:+ source_update +:+ ".npy"] in
  let testingInput :=
    os_path_join h datasetDir ["test" +:+ source_update +:+ ".npy"] in
  {| m_algo := p_algo p; m_encoding := p_encoding p; m_target := p_target p;
     m_trainingInput := trainingInput; m_testingInput := testingInput;
     m_modelDir := modelDir; m_sf := max_scale_factor a;
     m_maximisingMetric := p_maximisingMetric p; m_dataset := p_dataset p;
     m_numOutputs := numOutputs a; m_source := source a |}.

(** The body of the [for] loop of [runMainDriver]. *)
Definition runMainDriver_body (h : Host) (cfg : Config) (a : Args)
    (p : Point) : M World unit :=
  (print (nl +:+ banner_rule) ;;;
   print ("Executing on " +:+ p_algo p +:+ " " +:+ p_encoding p +:+ " "
          +:+ p_dataset p +:+ " " +:+ p_target p) ;;;
   print (banner_rule +:+ nl) ;;;
   _ <- lift (bitwidth_block cfg a (p_encoding p)) ;;
   emit (MainRun (main_args h cfg a p)) ;;;
   lift (main_run h (main_args h cfg a p)))%py.

Definition runMainDriver (h : Host) (cfg : Config) (a : Args) : M World unit :=
  for_each (sweep a) (runMainDriver_body h cfg a).

Definition run (h : Host) (cfg : Config) (a : Args) : M World unit :=
  (setLogLevel h a ;;;
   (if windows h then checkMSBuildPath h cfg else ret tt) ;;;
   setGlobalFlags ;;;
   runMainDriver h cfg a)%py.

(** The [main.Main] runs a trace holds, in order. *)
Fixpoint main_runs (t : list event) : list MainArgs :=
  match t with
  | [] => []
  | MainRun a :: t' => a :: main_runs t'
  | _ :: t' => main_runs t'
  end.

Definition initial : World := {| config_msbuildPath := None; trace := [] |}.

End SeeDotDev.

(** ** Names for what the build and execute functions call and log *)

Module PredictorTerms.
Import Py Predictor.

(** The file system a child starts in: its log file exists and is empty. *)
Definition logged (logFile : string) (w : World) : gmap string string :=
  <[logFile := EmptyString]> (files w).

Definition failed_text : string := "FAILED!!" +:+ nl +:+ nl.
Definition success_text : string := "success" +:+ nl.

Definition outcome_text (st : Z) : string :=
  if st =? 1 then failed_text else success_text.

Definition msbuild_args (c : Common) : list string :=
  [msbuildPath c; "Predictor.vcxproj"; "/t:Build";
   "/p:Configuration=Release"; "/p:Platform=x64"].

Definition msbuild_log {F} (h : Host F) (self : Self) : string :=
  os_path_join h (outputDir self) ["msbuild.txt"].

Definition gccbuild_log {F} (h : Host F) (self : Self) : string :=
  os_path_join h (outputDir self) ["gccbuild.txt"].

Definition exec_log {F} (h : Host F) (self : Self) : string :=
  os_path_join h (outputDir self) ["exec.txt"].

Definition linux_exe {F} (h : Host F) : string :=
  os_path_join h "./Predictor" [].

Definition exec_args (self : Self) (exeFile : string) : list string :=
  [exeFile; algo self; version self; datasetType self].

(** The world after a child returned with status [st] and left [files']:
    the events [before] the call, the call, and the message printed. *)
Definition after_call (w : World) (before : list event) (logFile : string)
    (args : list string) (env : option (gmap string string)) (st : Z)
    (files' : gmap string string) : World :=
  {| files := files';
     trace := trace w ++ before
              ++ [OpenWrite logFile; Call args env; Print (outcome_text st)] |}.

(** [float(line.strip())] *)
Definition parsed {F} (h : Host F) (line : string) : result F :=
  match float_of_str h (strip line) with
  | Some f => Ret f
  | None => Raise (ValueError (strip line))
  end.

End PredictorTerms.

(** ** The outcomes of a metric read, in the words of the specification *)

Module ResultStore.
Import Py.

Inductive outcome (F : Type) : Type :=
| Metric (f : F)
| NotFound
| MalformedStats.
Arguments Metric {F} f.
Arguments NotFound {F}.
Arguments MalformedStats {F}.

(** [readMetric] as the specification words it: a missing file is
    [NotFound]; otherwise the metric is the first line of the file, trimmed
    of surrounding whitespace and parsed as a floating-point number, and
    any parse failure (empty file, non-numeric first line) is
    [MalformedStats]. [file] is the content of the stats file, [None] when
    there is no such file. *)
Definition readMetric_spec {F} (parse : string -> option F)
    (file : option string) : outcome F :=
  match file with
  | None => NotFound
  | Some text =>
      match readlines text with
      | [] => MalformedStats
      | first :: _ =>
          match parse (strip first) with
          | Some f => Metric f
          | None => MalformedStats
          end
      end
  end.

(** The outcome a result of [readStatsFile] stands for: the exception of
    [open] is [NotFound], those of [stats[0]] and of [float] are
    [MalformedStats]. *)
Definition outcome_of {F} (r : result F) : option (outcome F) :=
  match r with
  | Ret f => Some (Metric f)
  | Raise (FileNotFoundError _) => Some NotFound
  | Raise IndexError => Some MalformedStats
  | Raise (ValueError _) => Some MalformedStats
  | Raise _ => None
  end.

End ResultStore.

(** ** Concrete hosts and inputs, used to run the definitions *)

Module Samples.
Import Py.

(** A POSIX host for the driver on which nothing is installed and every
    [main.Main] run returns. *)
Definition linux_host : SeeDotDev.Host :=
  {| SeeDotDev.windows := false;
     SeeDotDev.os_path_join := posix_join;
     SeeDotDev.environ := ∅;
     SeeDotDev.isfile := fun _ => false;
     SeeDotDev.main_run := fun _ => Ret tt |}.

Definition vs2017 : string := "C:\VS\2017\MSBuild.exe".
Definition vs2019 : string := "C:\VS\2019\MSBuild.exe".


(** A Windows host on which both candidates are installed. *)
Definition windows_host : SeeDotDev.Host :=
  {| SeeDotDev.windows := true;
     SeeDotDev.os_path_join := posix_join;
     SeeDotDev.environ := ∅;
     SeeDotDev.isfile :=
       fun p => (String.eqb p vs2017 || String.eqb p vs2019)%bool;
     SeeDotDev.main_run := fun _ => Ret tt |}.

Definition config16 : SeeDotDev.Config :=
  {| SeeDotDev.msbuildPathOptions := [vs2017; vs2019];
     SeeDotDev.wordLength := 16;
     SeeDotDev.Encoding_floatt := "float";
     SeeDotDev.Source_onnx := "onnx" |}.

Definition config12 : SeeDotDev.Config :=
  {| SeeDotDev.msbuildPathOptions := [vs2017; vs2019];
     SeeDotDev.wordLength := 12;
     SeeDotDev.Encoding_floatt := "float";
     SeeDotDev.Source_onnx := "onnx" |}.

(** [-a] and [-e] left at list defaults, the other axes given as one
    value each. *)
Definition raw_two_by_two : SeeDotDev.RawArgs :=
  {| SeeDotDev.raw_algo := SeeDotDev.Many ["bonsai"; "protonn"];
     SeeDotDev.raw_encoding := SeeDotDev.Many ["fixed"; "float"];
     SeeDotDev.raw_dataset := SeeDotDev.One "cifar-binary";
     SeeDotDev.raw_datasetType := SeeDotDev.One "testing";
     SeeDotDev.raw_target := SeeDotDev.One "x86";
     SeeDotDev.raw_maximisingMetric := SeeDotDev.One "acc";
     SeeDotDev.raw_numOutputs := 1;
     SeeDotDev.raw_source := "seedot";
     SeeDotDev.raw_max_scale_factor := None;
     SeeDotDev.raw_log := "error";
     SeeDotDev.raw_load_sf := false |}.

Definition raw_single : SeeDotDev.RawArgs :=
  {| SeeDotDev.raw_algo := SeeDotDev.One "bonsai";
     SeeDotDev.raw_encoding := SeeDotDev.One "fixed";
     SeeDotDev.raw_dataset := SeeDotDev.One "cifar-binary";
     SeeDotDev.raw_datasetType := SeeDotDev.One "testing";
     SeeDotDev.raw_target := SeeDotDev.One "x86";
     SeeDotDev.raw_maximisingMetric := SeeDotDev.One "acc";
     SeeDotDev.raw_numOutputs := 1;
     SeeDotDev.raw_source := "seedot";
     SeeDotDev.raw_max_scale_factor := None;
     SeeDotDev.raw_log := "error";
     SeeDotDev.raw_load_sf := false |}.

Definition fixed_point : SeeDotDev.Point :=
  {| SeeDotDev.p_algo := "bonsai"; SeeDotDev.p_encoding := "fixed";
     SeeDotDev.p_dataset := "cifar-binary"; SeeDotDev.p_target := "x86";
     SeeDotDev.p_maximisingMetric := "acc"; SeeDotDev.p_wordLength := 16 |}.

(** The binary64 value nearest to 0.9231, which is what [float("0.9231")]
    returns. *)
Definition f_0_9231 : float := 0x1.d8a0902de00d2p-1%float.

(** A [float] that knows the one literal the samples use. *)
Definition sample_float (s : string) : option float :=
  if String.eqb s "0.9231" then Some f_0_9231 else None.

(** What a run of the built artifact leaves behind: the stats file
    [stats], when there is one. *)
Definition leave_stats (stats : option string) (args : list string)
    (files : gmap string string) : gmap string string :=
  match stats, args with
  | Some text, [_; algo; version; datasetType] =>
      <[posix_join "output"
          [algo +:+ "-" +:+ version; "stats-" +:+ datasetType +:+ ".txt"]
        := text]> files
  | _, _ => files
  end.

(** Child processes with given return codes: a call with four arguments
    is the artifact, any other call is the build tool. *)
Definition child (build_status exec_status : Z) (stats : option string)
    (args : list string) (env : option (gmap string string)) (out : string)
    (files : gmap string string) : result (Z * gmap string string) :=
  match args with
  | [_; _; _; _] => Ret (exec_status, leave_stats stats args files)
  | _ => Ret (build_status, files)
  end.

Definition predictor_host (windows : bool) (build_status exec_status : Z)
    (stats : option string) : Predictor.Host float :=
  {| Predictor.windows := windows;
     Predictor.os_path_join := posix_join;
     Predictor.environ := {[ "PATH" := "C:\Windows" ]};
     Predictor.float_of_str := sample_float;
     Predictor.subprocess_call := child build_status exec_status stats |}.

Definition self0 : Predictor.Self :=
  {| Predictor.algo := "bonsai"; Predictor.version := "fixed";
     Predictor.datasetType := "testing"; Predictor.outputDir := "out" |}.

Definition common_msbuild : Predictor.Common :=
  {| Predictor.msbuildPath := vs2019; Predictor.mingw := false;
     Predictor.gccPath := None |}.

Definition common_mingw : Predictor.Common :=
  {| Predictor.msbuildPath := vs2019; Predictor.mingw := true;
     Predictor.gccPath := None |}.

Definition common_mingw_gcc : Predictor.Common :=
  {| Predictor.msbuildPath := vs2019; Predictor.mingw := true;
     Predictor.gccPath := Some "C:\MinGW\bin" |}.

Definition world0 : Predictor.World :=
  {| Predictor.files := ∅; Predictor.trace := [] |}.

Definition stats_text : string :=
  "0.9231" +:+ String LF ("12 of 13" +:+ String LF EmptyString).

End Samples.

(** ** [parseArgs], lines 113 to 134: the scratch and output directories *)

Module SeeDotDevDirs.
Import Py.

(** The two target names of [seedot.config] the choice of the output
    directory looks at. *)
Record Targets : Type := {
  Target_arduino : string;
  Target_m3 : string
}.

(** The file-system calls of [parseArgs] on a file system of type [FS]:
    [os.path.isdir], [os.path.exists], [shutil.rmtree] and
    [os.makedirs(path, exist_ok=...)]; the last two change the file system
    and may raise; [os_path_join a p] is [os.path.join(a, *p)]. *)
Record FsOps (FS : Type) : Type := {
  isdir : string -> FS -> bool;
  path_exists : string -> FS -> bool;
  rmtree : string -> FS -> result unit * FS;
  makedirs : string -> bool -> FS -> result unit * FS;
  os_path_join : string -> list string -> string
}.
Arguments isdir {FS} _ _ _.
Arguments path_exists {FS} _ _ _.
Arguments rmtree {FS} _ _ _.
Arguments makedirs {FS} _ _ _ _.
Arguments os_path_join {FS} _ _ _.

Inductive event : Type :=
| Rmtree (path : string)
| Makedirs (path : string) (exist_ok : bool).

(** [config.tempdir] and [config.outdir] ([None] until assigned), the file
    system, and the calls that changed it. *)
Record World (FS : Type) : Type := {
  fs : FS;
  config_tempdir : option string;
  config_outdir : option string;
  trace : list event
}.
Arguments fs {FS} _.
Arguments config_tempdir {FS} _.
Arguments config_outdir {FS} _.
Arguments trace {FS} _.

Definition set_tempdir {FS} (d : string) : M (World FS) unit :=
  modify (fun w => {| fs := fs w; config_tempdir := Some d;
                      config_outdir := config_outdir w; trace := trace w |}).

Definition set_outdir {FS} (d : string) : M (World FS) unit :=
  modify (fun w => {| fs := fs w; config_tempdir := config_tempdir w;
                      config_outdir := Some d; trace := trace w |}).

(** A call that changes the file system: it is recorded, and the file
    system it leaves is kept whether it returns or raises. *)
Definition fs_call {FS} (e : event) (f : FS -> result unit * FS)
    : M (World FS) unit :=
  fun w =>
    let (r, fs') := f (fs w) in
    (r, {| fs := fs'; config_tempdir := config_tempdir w;
           config_outdir := config_outdir w; trace := trace w ++ [e] |}).

(** [assert os.path.isdir(d), "..."]; the message of the assertion is not
    kept. *)
Definition assert_isdir {FS} (ops : FsOps FS) (d : string)
    : M (World FS) unit :=
  fun w =>
    if isdir ops d (fs w) then (Ret tt, w) else (Raise AssertionError, w).

(** Lines 113 to 121; the result is the value assigned to
    [config.tempdir]. *)
Definition setup_tempdir {FS} (ops : FsOps FS) (tempdir : option string)
    : M (World FS) string :=
  match tempdir with
  | Some d =>
      (assert_isdir ops d ;;;
       set_tempdir d ;;;
       ret d)%py
  | None =>
      (set_tempdir "temp" ;;;
       w <- get ;;
       (if path_exists ops "temp" (fs w)
        then fs_call (Rmtree "temp") (rmtree ops "temp")
        else ret tt) ;;;
       fs_call (Makedirs "temp" false) (makedirs ops "temp" false) ;;;
       ret "temp")%py
  end.

(** [self.args.target == [name]] *)
Definition is_only (name : string) (target : list string) : bool :=
  match target with
  | [t] => String.eqb t name
  | _ => false
  end.

(** The directory lines 128 to 133 choose; [tempdir] is [config.tempdir]. *)
Definition default_outdir {FS} (ops : FsOps FS) (t : Targets)
    (target : list string) (tempdir : string) : string :=
  if is_only (Target_arduino t) target
  then os_path_join ops "arduinodump" ["arduino"]
  else if is_only (Target_m3 t) target
  then os_path_join ops "m3dump" []
  else os_path_join ops tempdir ["arduino"].

(** Lines 123 to 134. *)
Definition setup_outdir {FS} (ops : FsOps FS) (t : Targets)
    (outdir : option string) (target : list string) (tempdir : string)
    : M (World FS) unit :=
  match outdir with
  | Some d =>
      (assert_isdir ops d ;;;
       set_outdir d)%py
  | None =>
      let d := default_outdir ops t target tempdir in
      (set_outdir d ;;;
       fs_call (Makedirs d true) (makedirs ops d true))%py
  end.

(** Lines 113 to 134, on the [--tempdir] and [--outdir] values and the
    normalised [--target]. *)
Definition parseArgs_dirs {FS} (ops : FsOps FS) (t : Targets)
    (tempdir outdir : option string) (target : list string)
    : M (World FS) unit :=
  (td <- setup_tempdir ops tempdir ;;
   setup_outdir ops t outdir target td)%py.

End SeeDotDevDirs.

(** ** More names for stating properties *)

Module MoreTerms.
Import Py.

(** A name that can stand as one component of a path: not empty, and with
    no separator at either end. *)
Definition plain_name (s : string) : bool :=
  (negb (String.eqb s EmptyString)
   && negb (startswith (String sep EmptyString) s)
   && negb (endswith_char sep s))%bool.

(** The suffix [runMainDriver] puts into the names of the input files. *)
Definition source_update (cfg : SeeDotDev.Config) (a : SeeDotDev.Args)
    : string :=
  if String.eqb (SeeDotDev.source a) (SeeDotDev.Source_onnx cfg)
  then "_onnx" else "".

(** [a] with the [--load-sf] flag at [b]. *)
Definition with_load_sf (b : bool) (a : SeeDotDev.Args) : SeeDotDev.Args :=
  {| SeeDotDev.algo := SeeDotDev.algo a;
     SeeDotDev.encoding := SeeDotDev.encoding a;
     SeeDotDev.dataset := SeeDotDev.dataset a;
     SeeDotDev.datasetType := SeeDotDev.datasetType a;
     SeeDotDev.target := SeeDotDev.target a;
     SeeDotDev.maximisingMetric := SeeDotDev.maximisingMetric a;
     SeeDotDev.numOutputs := SeeDotDev.numOutputs a;
     SeeDotDev.source := SeeDotDev.source a;
     SeeDotDev.max_scale_factor := SeeDotDev.max_scale_factor a;
     SeeDotDev.log := SeeDotDev.log a;
     SeeDotDev.load_sf := b |}.

(** The build tool [build] calls, the log it writes and the program
    [execute] calls, by platform. *)
Definition build_args {F} (h : Predictor.Host F) (c : Predictor.Common)
    : list string :=
  if Predictor.windows h then
    if Predictor.mingw c then ["mimg32-make.exe"]
    else PredictorTerms.msbuild_args c
  else ["make"].

Definition build_log {F} (h : Predictor.Host F) (c : Predictor.Common)
    (self : Predictor.Self) : string :=
  if (Predictor.windows h && Predictor.mingw c)%bool
  then PredictorTerms.gccbuild_log h self
  else PredictorTerms.msbuild_log h self.

Definition exe_file {F} (h : Predictor.Host F) (c : Predictor.Common)
    : string :=
  if Predictor.windows h then
    if Predictor.mingw c
    then Predictor.os_path_join h "./Predictor.exe" []
    else Predictor.os_path_join h "x64" ["Release"; "Predictor.exe"]
  else Predictor.os_path_join h "./Predictor" [].

(** The argument lists of the child processes a trace shows, in order. *)
Fixpoint calls (t : list Predictor.event) : list (list string) :=
  match t with
  | [] => []
  | Predictor.Call args _ :: t' => args :: calls t'
  | _ :: t' => calls t'
  end.

(** The files a trace shows opened for writing, in order. *)
Fixpoint opened (t : list Predictor.event) : list string :=
  match t with
  | [] => []
  | Predictor.OpenWrite p :: t' => p :: opened t'
  | _ :: t' => opened t'
  end.

(** A line of nothing but white space. *)
Fixpoint blank (s : string) : bool :=
  match s with
  | EmptyString => true
  | String x s' => (isspace x && blank s')%bool
  end.

(** The directories a trace of [parseArgs] shows removed. *)
Fixpoint removed (t : list SeeDotDevDirs.event) : list string :=
  match t with
  | [] => []
  | SeeDotDevDirs.Rmtree p :: t' => p :: removed t'
  | _ :: t' => removed t'
  end.

End MoreTerms.

(** ** More concrete hosts *)

Module MoreSamples.
Import Py.

(** A driver host on which every [main.Main] run for ProtoNN raises. *)
Definition protonn_fails : SeeDotDev.Host :=
  {| SeeDotDev.windows := false;
     SeeDotDev.os_path_join := posix_join;
     SeeDotDev.environ := ∅;
     SeeDotDev.isfile := fun _ => false;
     SeeDotDev.main_run :=
       fun m => if String.eqb (SeeDotDev.m_algo m) "protonn"
                then Raise (Exception "model not found") else Ret tt |}.

(** No encoding selected. *)
Definition raw_no_encoding : SeeDotDev.RawArgs :=
  {| SeeDotDev.raw_algo := SeeDotDev.Many ["bonsai"; "protonn"];
     SeeDotDev.raw_encoding := SeeDotDev.Many [];
     SeeDotDev.raw_dataset := SeeDotDev.One "cifar-binary";
     SeeDotDev.raw_datasetType := SeeDotDev.One "testing";
     SeeDotDev.raw_target := SeeDotDev.One "x86";
     SeeDotDev.raw_maximisingMetric := SeeDotDev.One "acc";
     SeeDotDev.raw_numOutputs := 1;
     SeeDotDev.raw_source := "seedot";
     SeeDotDev.raw_max_scale_factor := None;
     SeeDotDev.raw_log := "error";
     SeeDotDev.raw_load_sf := false |}.

(** Both encodings selected, the floating-point one first. *)
Definition raw_float_first : SeeDotDev.RawArgs :=
  {| SeeDotDev.raw_algo := SeeDotDev.One "bonsai";
     SeeDotDev.raw_encoding := SeeDotDev.Many ["float"; "fixed"];
     SeeDotDev.raw_dataset := SeeDotDev.One "cifar-binary";
     SeeDotDev.raw_datasetType := SeeDotDev.One "testing";
     SeeDotDev.raw_target := SeeDotDev.One "x86";
     SeeDotDev.raw_maximisingMetric := SeeDotDev.One "acc";
     SeeDotDev.raw_numOutputs := 1;
     SeeDotDev.raw_source := "seedot";
     SeeDotDev.raw_max_scale_factor := None;
     SeeDotDev.raw_log := "error";
     SeeDotDev.raw_load_sf := false |}.

(** A file system that is the set of its directories: [rmtree] removes the
    one path, [makedirs] adds it, raising when it is there and [exist_ok]
    is not given. *)
Definition set_fs : SeeDotDevDirs.FsOps (gset string) :=
  {| SeeDotDevDirs.isdir := fun p d => bool_decide (p ∈ d);
     SeeDotDevDirs.path_exists := fun p d => bool_decide (p ∈ d);
     SeeDotDevDirs.rmtree := fun p d => (Ret tt, d ∖ {[ p ]});
     SeeDotDevDirs.makedirs :=
       fun p ok d =>
         if (bool_decide (p ∈ d) && negb ok)%bool
         then (Raise (OSError p), d)
         else (Ret tt, {[ p ]} ∪ d);
     SeeDotDevDirs.os_path_join := posix_join |}.

Definition targets : SeeDotDevDirs.Targets :=
  {| SeeDotDevDirs.Target_arduino := "arduino";
     SeeDotDevDirs.Target_m3 := "m3" |}.

Definition dirs0 (d : gset string) : SeeDotDevDirs.World (gset string) :=
  {| SeeDotDevDirs.fs := d;
     SeeDotDevDirs.config_tempdir := None;
     SeeDotDevDirs.config_outdir := None;
     SeeDotDevDirs.trace := [] |}.

(** A predictor host on which no program can be started. *)
Definition no_tools : Predictor.Host float :=
  {| Predictor.windows := false;
     Predictor.os_path_join := posix_join;
     Predictor.environ := ∅;
     Predictor.float_of_str := Samples.sample_float;
     Predictor.subprocess_call :=
       fun args _ _ _ => Raise (FileNotFoundError (hd EmptyString args)) |}.

End MoreSamples.

(** ** Names for the stages of a run and for the first line of a text *)

Module StageTerms.
Import Py.





(** The [env] argument [build] gives to [subprocess.call]: [None] on the
    MSBuild and [make] paths, the environment [buildForMingw] prepared on
    the MinGW path, or the exception raised while preparing it. *)
Definition build_env {F} (h : Predictor.Host F) (c : Predictor.Common)
    : result (option (gmap string string)) :=
  if (Predictor.windows h && Predictor.mingw c)%bool then
    match Predictor.mingw_env h c with
    | Ret env => Ret (Some env)
    | Raise e => Raise e
    end
  else Ret None.

(** What [build] prints before it opens the log: [buildForMingw] prints
    nothing. *)
Definition build_prefix {F} (h : Predictor.Host F) (c : Predictor.Common)
    : list Predictor.event :=
  if (Predictor.windows h && Predictor.mingw c)%bool then []
  else [Predictor.Print "Build..."].

(** The world after the build tool returned [st] and left [files']. *)
Definition after_build {F} (h : Predictor.Host F) (c : Predictor.Common)
    (self : Predictor.Self) (w : Predictor.World)
    (env : option (gmap string string)) (st : Z)
    (files' : gmap string string) : Predictor.World :=
  PredictorTerms.after_call w (build_prefix h c)
    (MoreTerms.build_log h c self) (MoreTerms.build_args h c) env st files'.

(** The world after the artifact, started in [w1], returned [st] and left
    [files']. *)
Definition after_execute {F} (h : Predictor.Host F) (c : Predictor.Common)
    (self : Predictor.Self) (w1 : Predictor.World) (st : Z)
    (files' : gmap string string) : Predictor.World :=
  PredictorTerms.after_call w1 [Predictor.Print "Execution..."]
    (PredictorTerms.exec_log h self)
    (PredictorTerms.exec_args self (MoreTerms.exe_file h c)) None st files'.

(** A pass through the loop body of [runMainDriver] for [p] returns: the
    bit-width block returns and so does the [main.Main] run. *)
Definition point_returns (h : SeeDotDev.Host) (cfg : SeeDotDev.Config)
    (a : SeeDotDev.Args) (p : SeeDotDev.Point) : Prop :=
  returns (SeeDotDev.bitwidth_block cfg a (SeeDotDev.p_encoding p)) = true
  /\ SeeDotDev.main_run h (SeeDotDev.main_args h cfg a p) = Ret tt.

End StageTerms.

(** ** Hosts and worlds for the failure cases *)

Module StageSamples.
Import Py.


(** A world in which an earlier run left its stats file. *)
Definition stale_world : Predictor.World :=
  {| Predictor.files :=
       {[ "output/bonsai-fixed/stats-testing.txt" := Samples.stats_text ]};
     Predictor.trace := [] |}.


End StageSamples.

(** * Properties *)

(** ** Facts about lists and about the monad *)

Module ListFacts.

Lemma length_flat_map_const {A B : Type} (f : A -> list B) (n : nat)
    (l : list A) :
  (forall x, length (f x) = n) ->
  length (flat_map f l) = (length l * n)%nat.
Proof.
  intros Hn. induction l as [|x l IH]; simpl; [reflexivity|].
  rewrite List.length_app, Hn, IH. reflexivity.
Qed.

(** In a concatenation of blocks of equal length [n], position
    [i * n + j] is position [j] of block [i]. *)
Lemma nth_error_flat_map_const {A B : Type} (f : A -> list B) (n : nat)
    (l : list A) (i j : nat) (x : A) :
  (forall x, length (f x) = n) ->
  nth_error l i = Some x ->
  (j < n)%nat ->
  nth_error (flat_map f l) (i * n + j) = nth_error (f x) j.
Proof.
  intros Hn. revert i. induction l as [|y l IH]; intros i Hi Hj.
  - destruct i; discriminate.
  - destruct i as [|i]; simpl in Hi |- *.
    + injection Hi as ->. apply nth_error_app1. rewrite Hn. exact Hj.
    + rewrite nth_error_app2 by (rewrite Hn; lia).
      rewrite Hn. replace (n + i * n + j - n)%nat with (i * n + j)%nat by lia.
      apply IH; assumption.
Qed.

Lemma nth_error_lt {A : Type} (l : list A) (i : nat) (x : A) :
  nth_error l i = Some x -> (i < length l)%nat.
Proof. intros H. apply nth_error_Some. congruence. Qed.

End ListFacts.

(** ** Facts about strings *)

Module StringFacts.
Import Py.

Lemma app_cons (c : ascii) (s t : string) :
  String c s +:+ t = String c (s +:+ t).
Proof. reflexivity. Qed.

Lemma app_nil_l (s : string) : EmptyString +:+ s = s.
Proof. reflexivity. Qed.

Lemma app_nil_r (s : string) : s +:+ EmptyString = s.
Proof.
  induction s as [|c s IH]; [reflexivity|].
  rewrite app_cons, IH. reflexivity.
Qed.

Lemma app_assoc (s t u : string) : (s +:+ t) +:+ u = s +:+ (t +:+ u).
Proof.
  induction s as [|c s IH]; [reflexivity|].
  rewrite !app_cons, IH. reflexivity.
Qed.






Example strip_example :
  strip ("  0.9231 " +:+ String LF EmptyString) = "0.9231".
Proof. reflexivity. Qed.

Example readlines_example :
  readlines ("a" +:+ String CR (String LF "b" +:+ String LF "c"))
  = ["a" +:+ String LF EmptyString; "b" +:+ String LF EmptyString; "c"].
Proof. reflexivity. Qed.

Example posix_join_example :
  posix_join "datasets" ["bonsai"; "cifar-binary"]
  = "datasets/bonsai/cifar-binary"
  /\ posix_join "output" ["/tmp"; "stats.txt"] = "/tmp/stats.txt".
Proof. split; reflexivity. Qed.

Example repr_list_example :
  repr_list ["C:\a"; "it's"]
  = "['C:\\a', " +:+ String dquote "it's" +:+ String dquote "]".
Proof. reflexivity. Qed.

End StringFacts.

(** ** The sweep of [runMainDriver] *)

Module DriverSpec.
Import Py SeeDotDev ListFacts StringFacts.

Lemma block_bound (i n j m : nat) :
  (i < n)%nat -> (j < m)%nat -> (i * m + j < n * m)%nat.
Proof. nia. Qed.

Section Product6.
Context {A B C D E G : Type}.
Variables (la : list A) (lb : list B) (lc : list C) (ld : list D)
          (le : list E) (lg : list G).

Lemma length_product6 :
  length (product6 la lb lc ld le lg)
  = (length la * (length lb * (length lc * (length ld *
      (length le * length lg)))))%nat.
Proof.
  unfold product6.
  repeat (apply length_flat_map_const; intros ?).
  apply List.length_map.
Qed.

(** The tuple of the values at positions [ia], ..., [ig] of the six
    iterables sits at the position these indices denote in mixed radix,
    the first iterable being the most significant digit. *)
Lemma nth_error_product6 (ia ib ic id ie ig : nat) a b c d e g :
  nth_error la ia = Some a -> nth_error lb ib = Some b ->
  nth_error lc ic = Some c -> nth_error ld id = Some d ->
  nth_error le ie = Some e -> nth_error lg ig = Some g ->
  nth_error (product6 la lb lc ld le lg)
    (((((ia * length lb + ib) * length lc + ic) * length ld + id)
        * length le + ie) * length lg + ig)
  = Some (a, b, c, d, e, g).
Proof.
  intros Ha Hb Hc Hd He Hg.
  pose proof (nth_error_lt _ _ _ Ha) as La.
  pose proof (nth_error_lt _ _ _ Hb) as Lb.
  pose proof (nth_error_lt _ _ _ Hc) as Lc.
  pose proof (nth_error_lt _ _ _ Hd) as Ld.
  pose proof (nth_error_lt _ _ _ He) as Le.
  pose proof (nth_error_lt _ _ _ Hg) as Lg.
  set (ng := length lg) in *. set (ne := length le) in *.
  set (nd := length ld) in *. set (nc := length lc) in *.
  set (nb := length lb) in *.
  pose (j4 := (ie * ng + ig)%nat).
  pose (j3 := (id * (ne * ng) + j4)%nat).
  pose (j2 := (ic * (nd * (ne * ng)) + j3)%nat).
  pose (j1 := (ib * (nc * (nd * (ne * ng))) + j2)%nat).
  assert (B4 : (j4 < ne * ng)%nat) by (apply block_bound; assumption).
  assert (B3 : (j3 < nd * (ne * ng))%nat) by (apply block_bound; assumption).
  assert (B2 : (j2 < nc * (nd * (ne * ng)))%nat)
    by (apply block_bound; assumption).
  assert (B1 : (j1 < nb * (nc * (nd * (ne * ng))))%nat)
    by (apply block_bound; assumption).
  replace (((((ia * nb + ib) * nc + ic) * nd + id) * ne + ie) * ng + ig)%nat
    with (ia * (nb * (nc * (nd * (ne * ng)))) + j1)%nat
    by (unfold j1, j2, j3, j4; lia).
  unfold product6.
  rewrite (nth_error_flat_map_const _ (nb * (nc * (nd * (ne * ng)))) la ia
             j1 a);
    [| intros; repeat (apply length_flat_map_const; intros ?);
       apply List.length_map | assumption | assumption ].
  unfold j1.
  rewrite (nth_error_flat_map_const _ (nc * (nd * (ne * ng))) lb ib j2 b);
    [| intros; repeat (apply length_flat_map_const; intros ?);
       apply List.length_map | assumption | assumption ].
  unfold j2.
  rewrite (nth_error_flat_map_const _ (nd * (ne * ng)) lc ic j3 c);
    [| intros; repeat (apply length_flat_map_const; intros ?);
       apply List.length_map | assumption | assumption ].
  unfold j3.
  rewrite (nth_error_flat_map_const _ (ne * ng) ld id j4 d);
    [| intros; repeat (apply length_flat_map_const; intros ?);
       apply List.length_map | assumption | assumption ].
  unfold j4.
  rewrite (nth_error_flat_map_const _ ng le ie ig e);
    [| intros; apply List.length_map | assumption | assumption ].
  rewrite nth_error_map, Hg. reflexivity.
Qed.

Lemma in_product6 a b c d e g :
  In (a, b, c, d, e, g) (product6 la lb lc ld le lg)
  <-> In a la /\ In b lb /\ In c lc /\ In d ld /\ In e le /\ In g lg.
Proof.
  unfold product6. repeat setoid_rewrite in_flat_map.
  setoid_rewrite in_map_iff. split.
  - intros (a' & Ha & b' & Hb & c' & Hc & d' & Hd & e' & He & g' & Heq & Hg).
    injection Heq as -> -> -> -> -> ->. tauto.
  - intros (Ha & Hb & Hc & Hd & He & Hg).
    exists a; split; [assumption|]. exists b; split; [assumption|].
    exists c; split; [assumption|]. exists d; split; [assumption|].
    exists e; split; [assumption|]. exists g; split; [reflexivity|assumption].
Qed.

End Product6.

Lemma main_runs_app (t1 t2 : list event) :
  main_runs (t1 ++ t2) = main_runs t1 ++ main_runs t2.
Proof.
  induction t1 as [|e t1 IH]; [reflexivity|].
  destruct e; simpl; rewrite IH; reflexivity.
Qed.

Section Loop.
Variables (h : Host) (cfg : Config) (a : Args).

(** A pass through the loop body in which the bit-width block and the
    [main.Main] run both return. *)
Lemma body_returns (p : Point) (w : World) (b : option string) :
  bitwidth_block cfg a (p_encoding p) = Ret b ->
  main_run h (main_args h cfg a p) = Ret tt ->
  exists w',
    runMainDriver_body h cfg a p w = (Ret tt, w')
    /\ main_runs (trace w') = main_runs (trace w) ++ [main_args h cfg a p]
    /\ config_msbuildPath w' = config_msbuildPath w.
Proof.
  intros Hb Hm.
  unfold runMainDriver_body, bind, print, emit, modify, lift.
  rewrite Hb, Hm. eexists. split; [reflexivity|]. cbn.
  split; [|reflexivity].
  rewrite !main_runs_app. cbn. rewrite !List.app_nil_r. reflexivity.
Qed.

(** Whatever happens, a pass through the body starts at most one
    [main.Main] run, and exactly one when it returns. *)
Lemma body_runs (p : Point) (w : World) :
  let (r, w') := runMainDriver_body h cfg a p w in
  (main_runs (trace w') = main_runs (trace w) ++ [main_args h cfg a p]
   \/ (main_runs (trace w') = main_runs (trace w) /\ r <> Ret tt))
  /\ config_msbuildPath w' = config_msbuildPath w.
Proof.
  unfold runMainDriver_body, bind, print, emit, modify, lift.
  destruct (bitwidth_block cfg a (p_encoding p)) as [b|e]; cbn.
  - destruct (main_run h (main_args h cfg a p)) as [[]|e]; cbn;
      (split; [|reflexivity]); left;
      rewrite !main_runs_app; cbn; rewrite !List.app_nil_r; reflexivity.
  - split; [|reflexivity]. right.
    rewrite !main_runs_app; cbn; rewrite !List.app_nil_r.
    split; [reflexivity|discriminate].
Qed.

Lemma for_each_returns (ps : list Point) (w : World) :
  (forall p, In p ps ->
     returns (bitwidth_block cfg a (p_encoding p)) = true
     /\ main_run h (main_args h cfg a p) = Ret tt) ->
  exists w',
    for_each ps (runMainDriver_body h cfg a) w = (Ret tt, w')
    /\ main_runs (trace w')
       = main_runs (trace w) ++ map (main_args h cfg a) ps
    /\ config_msbuildPath w' = config_msbuildPath w.
Proof.
  revert w. induction ps as [|p ps IH]; intros w Hall.
  - exists w. cbn. rewrite List.app_nil_r. auto.
  - destruct (Hall p (or_introl eq_refl)) as [Hb Hm].
    destruct (bitwidth_block cfg a (p_encoding p)) as [b|] eqn:Eb;
      [|discriminate].
    destruct (body_returns p w b Eb Hm) as (w1 & E1 & T1 & C1).
    destruct (IH w1) as (w2 & E2 & T2 & C2).
    { intros q Hq. apply Hall. right. exact Hq. }
    exists w2. cbn. unfold bind at 1. rewrite E1.
    split; [exact E2|]. split; [|congruence].
    rewrite T2, T1, <- List.app_assoc. reflexivity.
Qed.

(** The [main.Main] runs of a sweep are those of a prefix of the
    enumeration, whatever stops it. *)
Lemma for_each_prefix (ps : list Point) (w : World) :
  let (r, w') := for_each ps (runMainDriver_body h cfg a) w in
  exists k : nat,
    (k <= length ps)%nat
    /\ main_runs (trace w')
       = main_runs (trace w) ++ firstn k (map (main_args h cfg a) ps)
    /\ (r = Ret tt -> k = length ps).
Proof.
  revert w. induction ps as [|p ps IH]; intros w.
  - cbn. exists 0%nat. cbn. rewrite List.app_nil_r. auto.
  - cbn. unfold bind at 1.
    pose proof (body_runs p w) as Hb.
    destruct (runMainDriver_body h cfg a p w) as [[[]|e] w1].
    + destruct Hb as [[T1|[_ Hne]] _]; [|congruence].
      specialize (IH w1).
      destruct (for_each ps (runMainDriver_body h cfg a) w1) as [r w2].
      destruct IH as (k & Hk & T2 & Hr).
      exists (S k). split; [simpl; lia|]. split.
      * rewrite T2, T1, <- List.app_assoc. reflexivity.
      * intros Hret. simpl. f_equal. auto.
    + destruct Hb as [[T1|[T1 _]] _].
      * exists 1%nat. split; [simpl; lia|]. split; [|discriminate].
        rewrite T1. cbn. destruct ps; reflexivity.
      * exists 0%nat. split; [lia|]. split; [|discriminate].
        rewrite T1. cbn. rewrite List.app_nil_r. reflexivity.
Qed.

End Loop.

Lemma sweep_length (a : Args) :
  length (sweep a)
  = (length (algo a) * length (encoding a) * length (dataset a)
     * length (target a) * length (maximisingMetric a))%nat.
Proof.
  unfold sweep. rewrite List.length_map, length_product6. simpl. lia.
Qed.

Lemma sweep_nth (a : Args) (ia ie id it im : nat) (xa xe xd xt xm : string) :
  nth_error (algo a) ia = Some xa ->
  nth_error (encoding a) ie = Some xe ->
  nth_error (dataset a) id = Some xd ->
  nth_error (target a) it = Some xt ->
  nth_error (maximisingMetric a) im = Some xm ->
  nth_error (sweep a)
    ((((ia * length (encoding a) + ie) * length (dataset a) + id)
        * length (target a) + it) * length (maximisingMetric a) + im)
  = Some {| p_algo := xa; p_encoding := xe; p_dataset := xd;
            p_target := xt; p_maximisingMetric := xm; p_wordLength := 16 |}.
Proof.
  intros Ha He Hd Ht Hm. unfold sweep. rewrite nth_error_map.
  pose proof (nth_error_product6 (algo a) (encoding a) (dataset a)
                (target a) (maximisingMetric a) [16]
                ia ie id it im 0 xa xe xd xt xm 16 Ha He Hd Ht Hm eq_refl)
    as H.
  simpl length in H. rewrite Nat.mul_1_r, Nat.add_0_r in H.
  rewrite H. reflexivity.
Qed.

Lemma sweep_in (a : Args) (p : Point) :
  In p (sweep a)
  <-> In (p_algo p) (algo a) /\ In (p_encoding p) (encoding a)
      /\ In (p_dataset p) (dataset a) /\ In (p_target p) (target a)
      /\ In (p_maximisingMetric p) (maximisingMetric a)
      /\ p_wordLength p = 16.
Proof.
  unfold sweep. rewrite in_map_iff. split.
  - intros ([[[[[xa xe] xd] xt] xm] wl] & <- & Hin).
    apply in_product6 in Hin. simpl in *. intuition congruence.
  - intros (Ha & He & Hd & Ht & Hm & Hw).
    exists (p_algo p, p_encoding p, p_dataset p, p_target p,
            p_maximisingMetric p, 16).
    split.
    + destruct p; simpl in *. subst. reflexivity.
    + apply in_product6. simpl. tauto.
Qed.

Lemma bitwidth_block_raises (cfg : Config) (a : Args) (e : string)
    (x : exn) :
  bitwidth_block cfg a e = Raise x -> x = AssertionError.
Proof.
  unfold bitwidth_block. destruct (derive_bitwidth cfg e); [discriminate|].
  destruct (load_sf a); [|discriminate]. intros [= <-]. reflexivity.
Qed.

Lemma body_main_fails (h : Host) (cfg : Config) (a : Args) (p : Point)
    (w : World) (b : option string) (e : exn) :
  bitwidth_block cfg a (p_encoding p) = Ret b ->
  main_run h (main_args h cfg a p) = Raise e ->
  exists w',
    runMainDriver_body h cfg a p w = (Raise e, w')
    /\ main_runs (trace w') = main_runs (trace w) ++ [main_args h cfg a p].
Proof.
  intros Hb Hm.
  unfold runMainDriver_body, bind, print, emit, modify, lift.
  rewrite Hb, Hm. eexists. split; [reflexivity|]. cbn.
  rewrite !main_runs_app. cbn. rewrite !List.app_nil_r. reflexivity.
Qed.

Lemma body_block_fails (h : Host) (cfg : Config) (a : Args) (p : Point)
    (w : World) :
  bitwidth_block cfg a (p_encoding p) = Raise AssertionError ->
  exists w',
    runMainDriver_body h cfg a p w = (Raise AssertionError, w')
    /\ main_runs (trace w') = main_runs (trace w).
Proof.
  intros Hb. unfold runMainDriver_body, bind, print, emit, modify, lift.
  rewrite Hb. eexists. split; [reflexivity|]. cbn.
  rewrite !main_runs_app. cbn. rewrite !List.app_nil_r. reflexivity.
Qed.

(** How a loop over the points [ps] ends, and what it ran. Either every
    pass returns and [main.Main] was run for all of [ps]; or the first
    pass that does not return is one whose [main.Main] run raises, and
    [main.Main] was run for the points up to and including that one; or it
    is one whose bit-width block raises, and [main.Main] was run for the
    points before that one only. *)
Lemma for_each_outcome (h : Host) (cfg : Config) (a : Args)
    (ps : list Point) (w : World) :
  ((forall q, In q ps -> StageTerms.point_returns h cfg a q)
   /\ exists w',
        for_each ps (runMainDriver_body h cfg a) w = (Ret tt, w')
        /\ main_runs (trace w')
           = main_runs (trace w) ++ map (main_args h cfg a) ps)
  \/ (exists pre p post e w',
        ps = pre ++ p :: post
        /\ (forall q, In q pre -> StageTerms.point_returns h cfg a q)
        /\ returns (bitwidth_block cfg a (p_encoding p)) = true
        /\ main_run h (main_args h cfg a p) = Raise e
        /\ for_each ps (runMainDriver_body h cfg a) w = (Raise e, w')
        /\ main_runs (trace w')
           = main_runs (trace w) ++ map (main_args h cfg a) (pre ++ [p]))
  \/ (exists pre p post w',
        ps = pre ++ p :: post
        /\ (forall q, In q pre -> StageTerms.point_returns h cfg a q)
        /\ bitwidth_block cfg a (p_encoding p) = Raise AssertionError
        /\ for_each ps (runMainDriver_body h cfg a) w
           = (Raise AssertionError, w')
        /\ main_runs (trace w')
           = main_runs (trace w) ++ map (main_args h cfg a) pre).
Proof.
  revert w. induction ps as [|p ps IH]; intros w.
  - left. split; [intros q []|]. exists w. split; [reflexivity|].
    simpl. rewrite List.app_nil_r. reflexivity.
  - destruct (bitwidth_block cfg a (p_encoding p)) as [b|x] eqn:Eb.
    + destruct (main_run h (main_args h cfg a p)) as [[]|e] eqn:Em.
      * destruct (body_returns h cfg a p w b Eb Em) as (w1 & E1 & T1 & _).
        assert (Hp : StageTerms.point_returns h cfg a p).
        { split; [rewrite Eb; reflexivity|exact Em]. }
        destruct (IH w1)
          as [(Hall & w' & E & T)
             |[(pre & q & post & e & w' & Hs & Hpre & Hb & Hm & E & T)
              |(pre & q & post & w' & Hs & Hpre & Hb & E & T)]].
        -- left. split.
           { intros q [<-|Hq]; [exact Hp|apply Hall, Hq]. }
           exists w'. simpl. unfold bind at 1. rewrite E1.
           split; [exact E|]. rewrite T, T1, <- List.app_assoc. reflexivity.
        -- right. left. exists (p :: pre), q, post, e, w'.
           split; [rewrite Hs; reflexivity|].
           split. { intros x [<-|Hx]; [exact Hp|apply Hpre, Hx]. }
           split; [exact Hb|]. split; [exact Hm|].
           simpl. unfold bind at 1. rewrite E1. split; [exact E|].
           rewrite T, T1, <- List.app_assoc. reflexivity.
        -- right. right. exists (p :: pre), q, post, w'.
           split; [rewrite Hs; reflexivity|].
           split. { intros x [<-|Hx]; [exact Hp|apply Hpre, Hx]. }
           split; [exact Hb|].
           simpl. unfold bind at 1. rewrite E1. split; [exact E|].
           rewrite T, T1, <- List.app_assoc. reflexivity.
      * destruct (body_main_fails h cfg a p w b e Eb Em) as (w' & E & T).
        right. left. exists [], p, ps, e, w'.
        split; [reflexivity|]. split; [intros q []|].
        split; [rewrite Eb; reflexivity|]. split; [exact Em|].
        simpl. unfold bind at 1. rewrite E. split; [reflexivity|exact T].
    + pose proof (bitwidth_block_raises cfg a _ x Eb) as ->.
      destruct (body_block_fails h cfg a p w Eb) as (w' & E & T).
      right. right. exists [], p, ps, w'.
      split; [reflexivity|]. split; [intros q []|]. split; [exact Eb|].
      simpl. unfold bind at 1. rewrite E. split; [reflexivity|].
      rewrite T, List.app_nil_r. reflexivity.
Qed.

(** C1, as the code has it. A single value selected for an axis is first
    turned into a one-element list and a list is kept as it is. The sweep
    of [runMainDriver] then has exactly
    |algorithms| x |encodings| x |datasets| x |targets| x |metrics| points;
    the point built from the values at positions [ia], [ie], [id], [it],
    [im] of the five axes sits at the position these indices denote with
    the algorithm as the most significant and the metric as the least
    significant digit; every point has word length 16 and its five values
    come from the five axes. For a point, [main.Main] is given the point's
    algorithm, encoding, target, metric and dataset, the input files and
    the model directory of its algorithm and dataset, and the scale factor,
    number of outputs and source of the command line. The points are
    processed in the order of the sweep, one [main.Main] run each, for as
    long as the processing returns: when every pass returns, [main.Main]
    was run once for every point; the first point whose [main.Main] run
    raises ends the sweep with that exception, after the runs for it and
    for the points before it; the first point whose bit-width block raises
    ends the sweep with [AssertionError], after the runs for the points
    before it. *)
Theorem sweep_is_cartesian_product (r : RawArgs) :
  let a := parseArgs r in
  let na := length (as_list (raw_algo r)) in
  let ne := length (as_list (raw_encoding r)) in
  let nd := length (as_list (raw_dataset r)) in
  let nt := length (as_list (raw_target r)) in
  let nm := length (as_list (raw_maximisingMetric r)) in
  ((forall s, as_list (One s) = [s]) /\ (forall l, as_list (Many l) = l)
   /\ algo a = as_list (raw_algo r)
   /\ encoding a = as_list (raw_encoding r)
   /\ dataset a = as_list (raw_dataset r)
   /\ target a = as_list (raw_target r)
   /\ maximisingMetric a = as_list (raw_maximisingMetric r))
  /\ length (sweep a) = (na * ne * nd * nt * nm)%nat
  /\ (forall ia ie id it im xa xe xd xt xm,
        nth_error (as_list (raw_algo r)) ia = Some xa ->
        nth_error (as_list (raw_encoding r)) ie = Some xe ->
        nth_error (as_list (raw_dataset r)) id = Some xd ->
        nth_error (as_list (raw_target r)) it = Some xt ->
        nth_error (as_list (raw_maximisingMetric r)) im = Some xm ->
        nth_error (sweep a)
          ((((ia * ne + ie) * nd + id) * nt + it) * nm + im)
        = Some {| p_algo := xa; p_encoding := xe; p_dataset := xd;
                  p_target := xt; p_maximisingMetric := xm;
                  p_wordLength := 16 |})
  /\ (forall p, In p (sweep a) ->
        p_wordLength p = 16
        /\ In (p_algo p) (as_list (raw_algo r))
        /\ In (p_encoding p) (as_list (raw_encoding r))
        /\ In (p_dataset p) (as_list (raw_dataset r))
        /\ In (p_target p) (as_list (raw_target r))
        /\ In (p_maximisingMetric p) (as_list (raw_maximisingMetric r)))
  /\ (forall h cfg p,
        main_args h cfg a p
        = let suffix :=
            if String.eqb (raw_source r) (Source_onnx cfg)
            then "_onnx" else "" in
          let datasetDir :=
            os_path_join h "datasets" [p_algo p; p_dataset p] in
          {| m_algo := p_algo p;
             m_encoding := p_encoding p;
             m_target := p_target p;
             m_trainingInput :=
               os_path_join h datasetDir ["train" +:+ suffix +:+ ".npy"];
             m_testingInput :=
               os_path_join h datasetDir ["test" +:+ suffix +:+ ".npy"];
             m_modelDir := os_path_join h "model" [p_algo p; p_dataset p];
             m_sf := raw_max_scale_factor r;
             m_maximisingMetric := p_maximisingMetric p;
             m_dataset := p_dataset p;
             m_numOutputs := raw_numOutputs r;
             m_source := raw_source r |})
  /\ (forall h cfg w,
        ((forall q, In q (sweep a) -> StageTerms.point_returns h cfg a q)
         /\ exists w',
              runMainDriver h cfg a w = (Ret tt, w')
              /\ main_runs (trace w')
                 = main_runs (trace w) ++ map (main_args h cfg a) (sweep a))
        \/ (exists pre p post e w',
              sweep a = pre ++ p :: post
              /\ (forall q, In q pre -> StageTerms.point_returns h cfg a q)
              /\ returns (bitwidth_block cfg a (p_encoding p)) = true
              /\ main_run h (main_args h cfg a p) = Raise e
              /\ runMainDriver h cfg a w = (Raise e, w')
              /\ main_runs (trace w')
                 = main_runs (trace w)
                   ++ map (main_args h cfg a) (pre ++ [p]))
        \/ (exists pre p post w',
              sweep a = pre ++ p :: post
              /\ (forall q, In q pre -> StageTerms.point_returns h cfg a q)
              /\ bitwidth_block cfg a (p_encoding p) = Raise AssertionError
              /\ runMainDriver h cfg a w = (Raise AssertionError, w')
              /\ main_runs (trace w')
                 = main_runs (trace w) ++ map (main_args h cfg a) pre)).
Proof.
  cbv zeta. split; [repeat split|].
  split; [apply sweep_length|].
  split; [intros; apply sweep_nth; assumption|].
  split.
  { intros p Hp. apply sweep_in in Hp. simpl in Hp. tauto. }
  split; [reflexivity|].
  intros h cfg w. unfold runMainDriver.
  apply (for_each_outcome h cfg (parseArgs r) (sweep (parseArgs r)) w).
Qed.

(** On the two-by-two selection the point of the second algorithm and the
    first encoding is the third of the sweep, and on a host on which every
    run returns the theorem gives the four runs, bonsai before protonn and,
    within each, fixed before float. *)
Lemma sweep_is_cartesian_product_witness :
  nth_error (sweep (parseArgs Samples.raw_two_by_two)) 2
  = Some {| p_algo := "protonn"; p_encoding := "fixed";
            p_dataset := "cifar-binary"; p_target := "x86";
            p_maximisingMetric := "acc"; p_wordLength := 16 |}
  /\ exists w',
       runMainDriver Samples.linux_host Samples.config16
         (parseArgs Samples.raw_two_by_two) initial = (Ret tt, w')
       /\ map (fun m => (m_algo m, m_encoding m, m_dataset m, m_target m,
                         m_maximisingMetric m))
            (main_runs (trace w'))
          = [("bonsai", "fixed", "cifar-binary", "x86", "acc");
             ("bonsai", "float", "cifar-binary", "x86", "acc");
             ("protonn", "fixed", "cifar-binary", "x86", "acc");
             ("protonn", "float", "cifar-binary", "x86", "acc")].
Proof.
  destruct (sweep_is_cartesian_product Samples.raw_two_by_two)
    as (_ & _ & Hnth & _ & _ & Hrun).
  split.
  - apply (Hnth 1%nat 0%nat 0%nat 0%nat 0%nat); reflexivity.
  - destruct (Hrun Samples.linux_host Samples.config16 initial)
      as [(_ & w' & E & T)
         |[(pre & p & post & e & w' & _ & _ & _ & Hm & _)
          |(pre & p & post & w' & _ & _ & Hb & _)]].
    + exists w'. split; [exact E|]. rewrite T. reflexivity.
    + discriminate Hm.
    + exfalso. revert Hb. unfold bitwidth_block, derive_bitwidth. simpl.
      destruct (String.eqb (p_encoding p) "float"); discriminate.
Defined.

(** C1, as the claim has it, fails: of the four combinations of the
    two-by-two selection only three are processed when the [main.Main] run
    of the third raises; the sweep ends there and the fourth combination
    is never handed to [main.Main]. *)
Lemma sweep_is_cut_short :
  length (sweep (parseArgs Samples.raw_two_by_two)) = 4%nat
  /\ fst (runMainDriver MoreSamples.protonn_fails Samples.config16
            (parseArgs Samples.raw_two_by_two) initial)
     = Raise (Exception "model not found")
  /\ map (fun m => (m_algo m, m_encoding m))
       (main_runs
          (trace (snd (runMainDriver MoreSamples.protonn_fails
                         Samples.config16
                         (parseArgs Samples.raw_two_by_two) initial))))
     = [("bonsai", "fixed"); ("bonsai", "float"); ("protonn", "fixed")].
Proof. repeat split. Qed.

Example sweep_single :
  sweep (parseArgs Samples.raw_single)
  = [{| p_algo := "bonsai"; p_encoding := "fixed";
        p_dataset := "cifar-binary"; p_target := "x86";
        p_maximisingMetric := "acc"; p_wordLength := 16 |}].
Proof. reflexivity. Qed.

(** *** Locating MSBuild *)

Lemma checkMSBuildPath_loop_app (h : Host) (l1 l2 : list string)
    (found : bool) (m : option string) :
  checkMSBuildPath_loop h (l1 ++ l2) found m
  = let (found', m') := checkMSBuildPath_loop h l1 found m in
    checkMSBuildPath_loop h l2 found' m'.
Proof.
  revert found m. induction l1 as [|p l1 IH]; intros found m;
    [reflexivity|].
  simpl. destruct (isfile h p); apply IH.
Qed.

(** Candidates that are no files leave [found] and [config.msbuildPath]
    as they were. *)
Lemma checkMSBuildPath_loop_none (h : Host) (l : list string)
    (found : bool) (m : option string) :
  (forall q, In q l -> isfile h q = false) ->
  checkMSBuildPath_loop h l found m = (found, m).
Proof.
  revert found m. induction l as [|p l IH]; intros found m Hall;
    [reflexivity|].
  simpl. rewrite (Hall p (or_introl eq_refl)).
  apply IH. intros q Hq. apply Hall. right. exact Hq.
Qed.

Lemma last_true_split {A : Type} (f : A -> bool) (l : list A) :
  existsb f l = true ->
  exists pre p post,
    l = pre ++ p :: post /\ f p = true
    /\ forall q, In q post -> f q = false.
Proof.
  induction l as [|y l IH]; intros Hex; [discriminate|].
  destruct (existsb f l) eqn:El.
  - destruct (IH eq_refl) as (pre & p & post & -> & Fp & Hpost).
    exists (y :: pre), p, post. auto.
  - simpl in Hex. rewrite El, orb_false_r in Hex.
    exists [], y, l. split; [reflexivity|]. split; [exact Hex|].
    intros q Hq. destruct (f q) eqn:Fq; [|reflexivity].
    assert (existsb f l = true) by (apply existsb_exists; eauto).
    congruence.
Qed.

(** C3, as the code has it. Whenever at least one candidate is a file,
    [checkMSBuildPath] returns and leaves in [config.msbuildPath] the LAST
    candidate of the list that is a file: the loop goes through all the
    candidates and every one that is a file overwrites the choice. *)
Theorem checkMSBuildPath_selects_last (h : Host) (cfg : Config) (w : World) :
  (exists x, In x (msbuildPathOptions cfg) /\ isfile h x = true) ->
  exists pre p post,
    msbuildPathOptions cfg = pre ++ p :: post
    /\ isfile h p = true
    /\ (forall q, In q post -> isfile h q = false)
    /\ checkMSBuildPath h cfg w
       = (Ret tt, {| config_msbuildPath := Some p; trace := trace w |}).
Proof.
  intros (x & Hin & Hx).
  assert (Hex : existsb (isfile h) (msbuildPathOptions cfg) = true)
    by (apply existsb_exists; eauto).
  destruct (last_true_split _ _ Hex) as (pre & p & post & E & Fp & Hpost).
  exists pre, p, post. repeat split; try assumption.
  unfold checkMSBuildPath. rewrite E, checkMSBuildPath_loop_app.
  destruct (checkMSBuildPath_loop h pre false (config_msbuildPath w))
    as [f' m'].
  simpl. rewrite Fp, (checkMSBuildPath_loop_none h post true (Some p) Hpost).
  reflexivity.
Qed.

Lemma checkMSBuildPath_selects_last_witness :
  exists pre p post,
    [Samples.vs2017; Samples.vs2019] = pre ++ p :: post
    /\ isfile Samples.windows_host p = true
    /\ (forall q, In q post -> isfile Samples.windows_host q = false)
    /\ checkMSBuildPath Samples.windows_host Samples.config16 initial
       = (Ret tt, {| config_msbuildPath := Some p; trace := [] |}).
Proof.
  apply (checkMSBuildPath_selects_last Samples.windows_host Samples.config16
           initial).
  exists Samples.vs2017. split; [left; reflexivity|reflexivity].
Defined.

(** C3, as the claim has it, fails: with both candidates installed the
    earliest existing entry is the first one, and [checkMSBuildPath]
    resolves to the second. *)
Lemma first_existing_not_selected :
  find (isfile Samples.windows_host)
    (msbuildPathOptions Samples.config16) = Some Samples.vs2017
  /\ checkMSBuildPath Samples.windows_host Samples.config16 initial
     = (Ret tt, {| config_msbuildPath := Some Samples.vs2019; trace := [] |})
  /\ Samples.vs2019 <> Samples.vs2017.
Proof. repeat split. discriminate. Qed.

(** *** The start of a run *)


Lemma checkMSBuildPath_none (h : Host) (cfg : Config) (w : World) :
  (forall p, In p (msbuildPathOptions cfg) -> isfile h p = false) ->
  checkMSBuildPath h cfg w = (Raise (Exception (not_found_message cfg)), w).
Proof.
  intros Hall. unfold checkMSBuildPath.
  rewrite (checkMSBuildPath_loop_none h _ _ _ Hall). simpl.
  destruct w; reflexivity.
Qed.



Example not_found_message_example :
  not_found_message Samples.config16
  = "Msbuild.exe not found at the following locations:" +:+ nl
    +:+ "['C:\\VS\\2017\\MSBuild.exe', 'C:\\VS\\2019\\MSBuild.exe']" +:+ nl
    +:+ "Please change the path and run again".
Proof. reflexivity. Qed.


(** On a host that is not Windows the candidates are not looked at: none
    is a file, and [run] returns after it ran [main.Main] for the one
    point of the sweep. *)
Example run_without_msbuild_on_linux :
  (forall p, In p (msbuildPathOptions Samples.config16) ->
     isfile Samples.linux_host p = false)
  /\ exists w',
       run Samples.linux_host Samples.config16
         (parseArgs Samples.raw_single) initial = (Ret tt, w')
       /\ length (main_runs (trace w')) = 1%nat.
Proof.
  split; [intros p _; reflexivity|].
  eexists. split; reflexivity.
Qed.

(** *** Bit-width derivation *)

Lemma derive_bitwidth_float (cfg : Config) :
  derive_bitwidth cfg (Encoding_floatt cfg) = Ret "float".
Proof. unfold derive_bitwidth. rewrite String.eqb_refl. reflexivity. Qed.

Lemma derive_bitwidth_fixed (cfg : Config) (e : string) :
  e <> Encoding_floatt cfg ->
  derive_bitwidth cfg e
  = if wordLength cfg =? 8 then Ret "int8"
    else if wordLength cfg =? 16 then Ret "int16"
    else if wordLength cfg =? 32 then Ret "int32"
    else Raise AssertionError.
Proof.
  intros Hne. unfold derive_bitwidth.
  destruct (String.eqb_spec e (Encoding_floatt cfg)); [contradiction|].
  reflexivity.
Qed.

(** C8, as the code has it. The encoding [config.Encoding.floatt] derives
    ['float']; any other encoding derives ['int8'], ['int16'] or ['int32']
    when [config.wordLength] is 8, 16 or 32. For any other word length the
    derivation raises inside the [try]. With the [--load-sf] flag set the
    handler's assertion fails and the body raises before [main.Main] is
    run; with the flag not set (its default) the failure is swallowed, no
    tag is assigned, and [main.Main] is run for the point all the same. *)
Theorem bitwidth_derivation (h : Host) (cfg : Config) (a : Args) (p : Point)
    (w : World) :
  (p_encoding p = Encoding_floatt cfg ->
   derive_bitwidth cfg (p_encoding p) = Ret "float")
  /\ (p_encoding p <> Encoding_floatt cfg ->
      (wordLength cfg = 8 -> derive_bitwidth cfg (p_encoding p) = Ret "int8")
      /\ (wordLength cfg = 16 ->
          derive_bitwidth cfg (p_encoding p) = Ret "int16")
      /\ (wordLength cfg = 32 ->
          derive_bitwidth cfg (p_encoding p) = Ret "int32")
      /\ (wordLength cfg <> 8 -> wordLength cfg <> 16 ->
          wordLength cfg <> 32 ->
          derive_bitwidth cfg (p_encoding p) = Raise AssertionError
          /\ (load_sf a = true ->
              exists w',
                runMainDriver_body h cfg a p w = (Raise AssertionError, w')
                /\ main_runs (trace w') = main_runs (trace w))
          /\ (load_sf a = false ->
              bitwidth_block cfg a (p_encoding p) = Ret None
              /\ main_runs (trace (snd (runMainDriver_body h cfg a p w)))
                 = main_runs (trace w) ++ [main_args h cfg a p]))).
Proof.
  split.
  - intros ->. apply derive_bitwidth_float.
  - intros Hne. rewrite (derive_bitwidth_fixed cfg _ Hne).
    split; [intros ->; reflexivity|].
    split; [intros ->; reflexivity|].
    split; [intros ->; reflexivity|].
    intros H8 H16 H32.
    destruct (Z.eqb_spec (wordLength cfg) 8); [contradiction|].
    destruct (Z.eqb_spec (wordLength cfg) 16); [contradiction|].
    destruct (Z.eqb_spec (wordLength cfg) 32); [contradiction|].
    assert (Hd : derive_bitwidth cfg (p_encoding p) = Raise AssertionError).
    { rewrite (derive_bitwidth_fixed cfg _ Hne).
      destruct (Z.eqb_spec (wordLength cfg) 8); [contradiction|].
      destruct (Z.eqb_spec (wordLength cfg) 16); [contradiction|].
      destruct (Z.eqb_spec (wordLength cfg) 32); [contradiction|].
      reflexivity. }
    split; [reflexivity|]. split.
    + intros Hsf.
      unfold runMainDriver_body, bind, print, emit, modify, lift,
        bitwidth_block.
      rewrite Hd, Hsf. eexists. split; [reflexivity|]. cbn.
      rewrite !main_runs_app. cbn. rewrite !List.app_nil_r. reflexivity.
    + intros Hsf.
      assert (Hb : bitwidth_block cfg a (p_encoding p) = Ret None)
        by (unfold bitwidth_block; rewrite Hd, Hsf; reflexivity).
      split; [exact Hb|].
      unfold runMainDriver_body, bind, print, emit, modify, lift.
      rewrite Hb.
      destruct (main_run h (main_args h cfg a p)) as [[]|e]; cbn;
        rewrite !main_runs_app; cbn; rewrite !List.app_nil_r; reflexivity.
Qed.

Lemma bitwidth_derivation_witness :
  derive_bitwidth Samples.config16 "fixed" = Ret "int16"
  /\ derive_bitwidth Samples.config12 "fixed" = Raise AssertionError
  /\ bitwidth_block Samples.config12 (parseArgs Samples.raw_single) "fixed"
     = Ret None.
Proof.
  destruct (bitwidth_derivation Samples.linux_host Samples.config16
              (parseArgs Samples.raw_single) Samples.fixed_point initial)
    as (_ & H16).
  destruct (bitwidth_derivation Samples.linux_host Samples.config12
              (parseArgs Samples.raw_single) Samples.fixed_point initial)
    as (_ & H12).
  split.
  - apply H16; [discriminate|reflexivity].
  - destruct H12 as (_ & _ & _ & H); [discriminate|].
    destruct H as (Hd & _ & Hoff); [discriminate..|].
    split; [exact Hd|]. apply Hoff. reflexivity.
Defined.

(** C8, as the claim has it, fails: with [config.wordLength] at 12 and
    [--load-sf] not given, the fixed-point configuration derives no tag,
    yet it is not rejected: the sweep returns and [main.Main] was run for
    it. *)
Lemma underivable_point_is_run :
  derive_bitwidth Samples.config12 "fixed" = Raise AssertionError
  /\ exists w',
       runMainDriver Samples.linux_host Samples.config12
         (parseArgs Samples.raw_single) initial = (Ret tt, w')
       /\ map (fun m => (m_algo m, m_encoding m)) (main_runs (trace w'))
          = [("bonsai", "fixed")].
Proof.
  split; [reflexivity|]. eexists. split; reflexivity.
Qed.

End DriverSpec.

(** ** The predictor *)

Module PredictorSpec.
Import Py Predictor PredictorTerms StringFacts.

Section Calls.
Context {F : Type}.
Variables (h : Host F) (c : Common) (self : Self).

Lemma call_logged_returns (logFile : string) (args : list string)
    (env : option (gmap string string)) (w : World) (st : Z)
    (files' : gmap string string) :
  subprocess_call h args env logFile (logged logFile w) = Ret (st, files') ->
  call_logged h logFile args env w
  = (Ret st, {| files := files';
                trace := trace w ++ [OpenWrite logFile; Call args env] |}).
Proof.
  intros H. unfold call_logged, logged in *.
  unfold bind, emit, modify, get, ret. cbn. rewrite H. cbn.
  rewrite <- List.app_assoc. reflexivity.
Qed.

Lemma call_logged_raises (logFile : string) (args : list string)
    (env : option (gmap string string)) (w : World) (e : exn) :
  subprocess_call h args env logFile (logged logFile w) = Raise e ->
  fst (call_logged h logFile args env w) = Raise e.
Proof.
  intros H. unfold call_logged, logged in *.
  unfold bind, emit, modify, get, raise. cbn. rewrite H. reflexivity.
Qed.

Lemma build_outcome_spec (st : Z) (w : World) :
  build_outcome st w
  = (Ret (negb (st =? 1)),
     {| files := files w; trace := trace w ++ [Print (outcome_text st)] |}).
Proof.
  unfold build_outcome, outcome_text. destruct (st =? 1); reflexivity.
Qed.

Lemma buildForWindows_spec (w : World) (st : Z) (files' : gmap string string) :
  subprocess_call h (msbuild_args c) None (msbuild_log h self)
    (logged (msbuild_log h self) w) = Ret (st, files') ->
  buildForWindows h c self w
  = (Ret (negb (st =? 1)),
     after_call w [Print "Build..."] (msbuild_log h self) (msbuild_args c)
       None st files').
Proof.
  intros H. unfold buildForWindows, after_call. unfold bind at 1.
  unfold print_noend, emit, modify. unfold bind.
  rewrite (call_logged_returns (msbuild_log h self) (msbuild_args c) None _
             st files') by exact H.
  rewrite build_outcome_spec. cbn. rewrite <- !List.app_assoc. reflexivity.
Qed.

Lemma buildForLinux_spec (w : World) (st : Z) (files' : gmap string string) :
  subprocess_call h ["make"] None (msbuild_log h self)
    (logged (msbuild_log h self) w) = Ret (st, files') ->
  buildForLinux h self w
  = (Ret (negb (st =? 1)),
     after_call w [Print "Build..."] (msbuild_log h self) ["make"] None st
       files').
Proof.
  intros H. unfold buildForLinux, after_call. unfold bind at 1.
  unfold print_noend, emit, modify. unfold bind.
  rewrite (call_logged_returns (msbuild_log h self) ["make"] None _
             st files') by exact H.
  rewrite build_outcome_spec. cbn. rewrite <- !List.app_assoc. reflexivity.
Qed.

Lemma buildForMingw_spec (w : World) (env : gmap string string) (st : Z)
    (files' : gmap string string) :
  mingw_env h c = Ret env ->
  subprocess_call h ["mimg32-make.exe"] (Some env) (gccbuild_log h self)
    (logged (gccbuild_log h self) w) = Ret (st, files') ->
  buildForMingw h c self w
  = (Ret (negb (st =? 1)),
     after_call w [] (gccbuild_log h self) ["mimg32-make.exe"] (Some env) st
       files').
Proof.
  intros He H. unfold buildForMingw, after_call. unfold bind at 1.
  unfold lift. rewrite He. unfold bind.
  rewrite (call_logged_returns (gccbuild_log h self) _ (Some env) _
             st files') by exact H.
  rewrite build_outcome_spec. cbn. rewrite <- !List.app_assoc. reflexivity.
Qed.

(** [readStatsFile], case by case. *)
Lemma readStatsFile_spec (w : World) :
  readStatsFile h self w
  = match files w !! statsFile h self with
    | None => (Raise (FileNotFoundError (statsFile h self)), w)
    | Some text =>
        (parse_stats h text,
         {| files := files w;
            trace := trace w ++ [OpenRead (statsFile h self)] |})
    end.
Proof.
  unfold readStatsFile, bind, get. cbn.
  destruct (files w !! statsFile h self); reflexivity.
Qed.

(** What an execute function does once the artifact returned [st]. *)
Lemma execute_with_spec (exeFile : string) (w : World) (st : Z)
    (files' : gmap string string) :
  subprocess_call h (exec_args self exeFile) None (exec_log h self)
    (logged (exec_log h self) w) = Ret (st, files') ->
  let w1 := after_call w [Print "Execution..."] (exec_log h self)
              (exec_args self exeFile) None st files' in
  execute_with h self exeFile w
  = if st =? 1 then (Ret None, w1)
    else match readStatsFile h self w1 with
         | (Ret acc, w2) => (Ret (Some acc), w2)
         | (Raise e, w2) => (Raise e, w2)
         end.
Proof.
  intros H w1. unfold execute_with. unfold bind at 1.
  unfold print_noend, emit, modify. unfold bind at 1.
  change [algo self; version self; datasetType self]
    with (tl (exec_args self exeFile)).
  change (exeFile :: tl (exec_args self exeFile))
    with (exec_args self exeFile).
  change (os_path_join h (outputDir self) ["exec.txt"])
    with (exec_log h self).
  rewrite (call_logged_returns (exec_log h self) (exec_args self exeFile)
             None _ st files') by exact H.
  unfold execute_outcome, w1, after_call, outcome_text.
  destruct (st =? 1).
  - cbn. rewrite <- !List.app_assoc. reflexivity.
  - unfold bind at 1. unfold print, emit, modify. cbn [trace files].
    rewrite <- !List.app_assoc. cbn [List.app].
    unfold bind, ret, success_text. reflexivity.
Qed.

Lemma execute_with_some (exeFile : string) (w w2 : World) (f : F) :
  execute_with h self exeFile w = (Ret (Some f), w2) ->
  exists w1 text,
    readStatsFile h self w1 = (Ret f, w2)
    /\ files w1 !! statsFile h self = Some text
    /\ parse_stats h text = Ret f.
Proof.
  intros H.
  destruct (subprocess_call h (exec_args self exeFile) None (exec_log h self)
              (logged (exec_log h self) w)) as [[st files']|e] eqn:Ec.
  - rewrite (execute_with_spec exeFile w st files' Ec) in H.
    destruct (st =? 1); [discriminate|].
    set (w1 := after_call w [Print "Execution..."] (exec_log h self)
                 (exec_args self exeFile) None st files') in H.
    exists w1. rewrite readStatsFile_spec in H |- *.
    destruct (files w1 !! statsFile h self) as [text|]; [|discriminate].
    exists text. destruct (parse_stats h text) as [acc|e]; [|discriminate].
    injection H as -> <-. auto.
  - exfalso. unfold execute_with in H. unfold bind at 1 in H.
    unfold print_noend, emit, modify in H. unfold bind at 1 in H.
    match type of H with
    | context [call_logged h ?l ?a ?v ?w0] =>
        pose proof (call_logged_raises l a v w0 e Ec) as Hr;
        destruct (call_logged h l a v w0) as [[st|e'] w']
    end; [discriminate Hr|discriminate H].
Qed.

End Calls.

(** *** Return codes *)

(** C2, as the code has it. For every build or execute invocation whose
    child process returns, its return code alone decides the outcome, and
    the one code that counts as failure is 1: with return code 1 the build
    functions return [False] and the execute functions return [None]
    without reading the stats file; with any other return code, 0 as well
    as 2, 127 or a negative one, the build functions return [True] and the
    execute functions go on to read the stats file. *)
Theorem return_code_one_is_failure {F : Type} (h : Host F) (c : Common)
    (self : Self) (w : World) (st : Z) (files' : gmap string string) :
  (subprocess_call h (msbuild_args c) None (msbuild_log h self)
     (logged (msbuild_log h self) w) = Ret (st, files') ->
   fst (buildForWindows h c self w) = Ret (negb (st =? 1)))
  /\ (subprocess_call h ["make"] None (msbuild_log h self)
        (logged (msbuild_log h self) w) = Ret (st, files') ->
      fst (buildForLinux h self w) = Ret (negb (st =? 1)))
  /\ (forall env,
        mingw_env h c = Ret env ->
        subprocess_call h ["mimg32-make.exe"] (Some env) (gccbuild_log h self)
          (logged (gccbuild_log h self) w) = Ret (st, files') ->
        fst (buildForMingw h c self w) = Ret (negb (st =? 1)))
  /\ (forall exeFile,
        subprocess_call h (exec_args self exeFile) None (exec_log h self)
          (logged (exec_log h self) w) = Ret (st, files') ->
        let w1 := after_call w [Print "Execution..."] (exec_log h self)
                    (exec_args self exeFile) None st files' in
        (st = 1 -> execute_with h self exeFile w = (Ret None, w1))
        /\ (st <> 1 ->
            execute_with h self exeFile w
            = match readStatsFile h self w1 with
              | (Ret acc, w2) => (Ret (Some acc), w2)
              | (Raise e, w2) => (Raise e, w2)
              end))
  /\ executeForLinux h self = execute_with h self (linux_exe h).
Proof.
  split; [intros H; rewrite (buildForWindows_spec h c self w st files' H);
          reflexivity|].
  split; [intros H; rewrite (buildForLinux_spec h self w st files' H);
          reflexivity|].
  split; [intros env He H;
          rewrite (buildForMingw_spec h c self w env st files' He H);
          reflexivity|].
  split; [|reflexivity].
  intros exeFile H w1.
  pose proof (execute_with_spec h self exeFile w st files' H) as Hs.
  cbv zeta in Hs. fold w1 in Hs. split.
  - intros ->. exact Hs.
  - intros Hne. rewrite Hs. destruct (Z.eqb_spec st 1); [contradiction|].
    reflexivity.
Qed.

(** With [make] returning 2 the Linux build function returns [True]. *)
Lemma return_code_one_is_failure_witness :
  fst (buildForLinux
         (Samples.predictor_host false 2 0 (Some Samples.stats_text))
         Samples.self0 Samples.world0) = Ret true.
Proof.
  destruct (return_code_one_is_failure
              (Samples.predictor_host false 2 0 (Some Samples.stats_text))
              Samples.common_msbuild Samples.self0 Samples.world0 2
              (logged "out/msbuild.txt" Samples.world0)) as (_ & H & _).
  apply H. reflexivity.
Defined.

(** C2, as the claim has it, fails: MSBuild returning the non-zero code 2
    makes [buildForWindows] return [True], and the artifact returning 2
    makes [executeForLinux] read and return the metric. *)
Lemma nonzero_return_code_is_success :
  fst (buildForWindows
         (Samples.predictor_host true 2 0 (Some Samples.stats_text))
         Samples.common_msbuild Samples.self0 Samples.world0) = Ret true
  /\ fst (executeForLinux
            (Samples.predictor_host false 0 2 (Some Samples.stats_text))
            Samples.self0 Samples.world0) = Ret (Some Samples.f_0_9231).
Proof. split; vm_compute; reflexivity. Qed.

(** *** The two stages of [run] *)

Section Run.
Context {F : Type}.
Variables (h : Host F) (c : Common) (self : Self).

Lemma run_build_false (w w1 : World) :
  build h c self w = (Ret false, w1) -> run h c self w = (Ret None, w1).
Proof. intros H. unfold run, bind. rewrite H. reflexivity. Qed.

Lemma run_build_true (w w1 : World) :
  build h c self w = (Ret true, w1) ->
  run h c self w = execute h c self w1.
Proof.
  intros H. unfold run, bind. rewrite H. cbn.
  destruct (execute h c self w1) as [[acc|e] w2]; reflexivity.
Qed.

Lemma run_some_inv (w w2 : World) (f : F) :
  run h c self w = (Ret (Some f), w2) ->
  exists w1,
    build h c self w = (Ret true, w1)
    /\ execute h c self w1 = (Ret (Some f), w2).
Proof.
  intros H. destruct (build h c self w) as [[[|]|e] w1] eqn:Eb.
  - exists w1. rewrite (run_build_true w w1 Eb) in H. auto.
  - rewrite (run_build_false w w1 Eb) in H. discriminate.
  - unfold run, bind in H. rewrite Eb in H. discriminate.
Qed.

Lemma execute_is_execute_with :
  exists exeFile, execute h c self = execute_with h self exeFile.
Proof.
  unfold execute, executeForMingw, executeForWindows, executeForLinux.
  destruct (windows h); [destruct (mingw c)|]; eexists; reflexivity.
Qed.

End Run.

(** C7, as the code has it. When the build stage reports failure, which
    it does exactly when the build tool returns code 1, [run] returns
    [None] in the world the build stage left: nothing of the execute stage
    happens, the artifact is not called and the execution log is not
    opened. The events of such a run are the start message (not on the
    MinGW path), the opening of the build log, the call of the build tool
    and the failure message. *)
Theorem failed_build_ends_run {F : Type} (h : Host F) (c : Common)
    (self : Self) (w : World) :
  (forall w1, build h c self w = (Ret false, w1) ->
     run h c self w = (Ret None, w1))
  /\ (forall files',
        windows h = false ->
        subprocess_call h ["make"] None (msbuild_log h self)
          (logged (msbuild_log h self) w) = Ret (1, files') ->
        run h c self w
        = (Ret None,
           {| files := files';
              trace := trace w ++ [Print "Build...";
                                   OpenWrite (msbuild_log h self);
                                   Call ["make"] None;
                                   Print failed_text] |}))
  /\ (forall files',
        windows h = true -> mingw c = false ->
        subprocess_call h (msbuild_args c) None (msbuild_log h self)
          (logged (msbuild_log h self) w) = Ret (1, files') ->
        run h c self w
        = (Ret None,
           {| files := files';
              trace := trace w ++ [Print "Build...";
                                   OpenWrite (msbuild_log h self);
                                   Call (msbuild_args c) None;
                                   Print failed_text] |}))
  /\ (forall files' env,
        windows h = true -> mingw c = true ->
        mingw_env h c = Ret env ->
        subprocess_call h ["mimg32-make.exe"] (Some env) (gccbuild_log h self)
          (logged (gccbuild_log h self) w) = Ret (1, files') ->
        run h c self w
        = (Ret None,
           {| files := files';
              trace := trace w ++ [OpenWrite (gccbuild_log h self);
                                   Call ["mimg32-make.exe"] (Some env);
                                   Print failed_text] |})).
Proof.
  split; [intros w1; apply run_build_false|]. split; [|split].
  - intros files' Hw Hc. apply run_build_false. unfold build. rewrite Hw.
    rewrite (buildForLinux_spec h self w 1 files' Hc). reflexivity.
  - intros files' Hw Hm Hc. apply run_build_false. unfold build.
    rewrite Hw, Hm.
    rewrite (buildForWindows_spec h c self w 1 files' Hc). reflexivity.
  - intros files' env Hw Hm He Hc. apply run_build_false. unfold build.
    rewrite Hw, Hm.
    rewrite (buildForMingw_spec h c self w env 1 files' He Hc). reflexivity.
Qed.

Lemma failed_build_ends_run_witness :
  run (Samples.predictor_host false 1 0 (Some Samples.stats_text))
    Samples.common_msbuild Samples.self0 Samples.world0
  = (Ret None,
     {| files := logged "out/msbuild.txt" Samples.world0;
        trace := [Print "Build..."; OpenWrite "out/msbuild.txt";
                  Call ["make"] None; Print failed_text] |}).
Proof.
  destruct (failed_build_ends_run
              (Samples.predictor_host false 1 0 (Some Samples.stats_text))
              Samples.common_msbuild Samples.self0 Samples.world0)
    as (_ & H & _).
  apply (H (logged "out/msbuild.txt" Samples.world0)); reflexivity.
Defined.

(** C7, as the claim has it, fails: [make] returning the non-zero code 2
    does not stop the run; the execution log is opened, the artifact is
    called and its metric is returned. *)
Lemma nonzero_build_code_runs_execute :
  let '(r, w) :=
    run (Samples.predictor_host false 2 0 (Some Samples.stats_text))
      Samples.common_msbuild Samples.self0 Samples.world0 in
  r = Ret (Some Samples.f_0_9231)
  /\ trace w
     = [Print "Build..."; OpenWrite "out/msbuild.txt"; Call ["make"] None;
        Print success_text;
        Print "Execution..."; OpenWrite "out/exec.txt";
        Call ["./Predictor"; "bonsai"; "fixed"; "testing"] None;
        Print success_text;
        OpenRead "output/bonsai-fixed/stats-testing.txt"].
Proof. vm_compute. split; reflexivity. Qed.

(** *** The stats file *)


Lemma app_not_empty (s t : string) :
  t <> EmptyString -> s +:+ t <> EmptyString.
Proof. destruct s; [auto | discriminate]. Qed.

Lemma endswith_char_app (x : ascii) (s t : string) :
  t <> EmptyString ->
  endswith_char x (s +:+ t) = endswith_char x t.
Proof.
  intros Ht. induction s as [|d s IH]; [reflexivity|].
  rewrite app_cons. simpl.
  destruct (s +:+ t) eqn:E; [|exact IH].
  exfalso. exact (app_not_empty s t Ht E).
Qed.


Lemma readlines_from_line (line cur rest : string) :
  contains_char LF line = false ->
  contains_char CR line = false ->
  readlines_from cur (line +:+ String LF rest)
  = (cur +:+ line +:+ nl) :: readlines_from EmptyString rest.
Proof.
  revert cur. induction line as [|x line IH]; intros cur Hlf Hcr.
  - rewrite app_nil_l. simpl. reflexivity.
  - change (Ascii.eqb LF x || contains_char LF line = false)%bool in Hlf.
    change (Ascii.eqb CR x || contains_char CR line = false)%bool in Hcr.
    apply orb_false_iff in Hlf as [Hx1 Hlf].
    apply orb_false_iff in Hcr as [Hx2 Hcr].
    rewrite Ascii.eqb_sym in Hx1. rewrite Ascii.eqb_sym in Hx2.
    rewrite app_cons. simpl readlines_from. rewrite Hx1, Hx2.
    rewrite (IH _ Hlf Hcr). rewrite !app_assoc. reflexivity.
Qed.

Lemma readlines_from_not_nil (cur s : string) :
  readlines_from cur s = [] -> cur = EmptyString /\ s = EmptyString.
Proof.
  revert cur. induction s as [|x s IH]; intros cur H.
  - simpl in H. destruct cur; [auto|discriminate].
  - simpl in H. destruct (Ascii.eqb x LF); [discriminate|].
    destruct (Ascii.eqb x CR).
    + destruct s as [|d s']; [discriminate|].
      destruct (Ascii.eqb d LF); discriminate.
    + apply IH in H as [Hc _]. destruct cur; discriminate.
Qed.

(** Only the empty file has no lines. *)
Lemma readlines_nil (text : string) :
  readlines text = [] <-> text = EmptyString.
Proof.
  split.
  - intros H. apply readlines_from_not_nil in H. tauto.
  - intros ->. reflexivity.
Qed.

Lemma rstrip_app_nl (s : string) : rstrip (s +:+ nl) = rstrip s.
Proof.
  induction s as [|x s IH]; [reflexivity|].
  rewrite app_cons. simpl. rewrite IH. reflexivity.
Qed.

Lemma strip_app_nl (s : string) : strip (s +:+ nl) = strip s.
Proof.
  unfold strip. induction s as [|x s IH]; [reflexivity|].
  rewrite app_cons. simpl lstrip. destruct (isspace x); [exact IH|].
  change (String x (s +:+ nl)) with (String x s +:+ nl).
  apply rstrip_app_nl.
Qed.

Section Stats.
Context {F : Type}.
Variables (h : Host F) (self : Self).

Lemma parse_stats_first_line (line rest : string) :
  contains_char LF line = false ->
  contains_char CR line = false ->
  parse_stats h (line +:+ String LF rest) = parsed h line.
Proof.
  intros Hlf Hcr. unfold parse_stats, readlines, parsed.
  rewrite (readlines_from_line line EmptyString rest Hlf Hcr).
  rewrite app_nil_l. simpl map. rewrite strip_app_nl. reflexivity.
Qed.

End Stats.

(** *** The first line, and trimming *)











(** C5. The result of [readStatsFile] is the outcome the specification
    gives for the stats file: a missing file raises [FileNotFoundError]
    ([NotFound]); an empty file raises [IndexError] and a first line that
    [float] rejects raises [ValueError] (both [MalformedStats]); and a
    value is returned only when the file exists and [float] accepts its
    trimmed first line, in which case it is that float: nothing is ever
    put in its place. *)
Theorem readStatsFile_outcomes {F : Type} (h : Host F) (self : Self)
    (w : World) :
  ResultStore.outcome_of (fst (readStatsFile h self w))
  = Some (ResultStore.readMetric_spec (float_of_str h)
            (files w !! statsFile h self))
  /\ (files w !! statsFile h self = None ->
      readStatsFile h self w
      = (Raise (FileNotFoundError (statsFile h self)), w))
  /\ (forall text,
        files w !! statsFile h self = Some text ->
        (fst (readStatsFile h self w) = Raise IndexError
         <-> text = EmptyString))
  /\ (forall text first more,
        files w !! statsFile h self = Some text ->
        readlines text = first :: more ->
        float_of_str h (strip first) = None ->
        fst (readStatsFile h self w) = Raise (ValueError (strip first)))
  /\ (forall f,
        fst (readStatsFile h self w) = Ret f ->
        exists text first more,
          files w !! statsFile h self = Some text
          /\ readlines text = first :: more
          /\ float_of_str h (strip first) = Some f).
Proof.
  rewrite readStatsFile_spec.
  destruct (files w !! statsFile h self) as [text|] eqn:Ef.
  - unfold parse_stats, ResultStore.readMetric_spec. cbn [fst].
    destruct (readlines text) as [|first more] eqn:El; cbn [map].
    + split; [reflexivity|]. split; [discriminate|].
      split.
      { intros t [= <-].
        split; [intros _; apply readlines_nil, El|reflexivity]. }
      split; [intros t a b [= <-]; rewrite El; discriminate|discriminate].
    + destruct (float_of_str h (strip first)) as [f|] eqn:Ep.
      * split; [reflexivity|]. split; [discriminate|].
        split.
        { intros t [= <-]. split; [discriminate|].
          intros ->. discriminate El. }
        split.
        { intros t a b [= <-]. rewrite El. intros [= <- <-]. congruence. }
        intros f' [= <-]. exists text, first, more. auto.
      * split; [reflexivity|]. split; [discriminate|].
        split.
        { intros t [= <-]. split; [discriminate|].
          intros ->. discriminate El. }
        split; [|discriminate].
        intros t a b [= <-]. rewrite El. intros [= <- <-] _. reflexivity.
  - split; [reflexivity|]. split; [reflexivity|].
    split; [discriminate|]. split; discriminate.
Qed.

Lemma readStatsFile_outcomes_witness :
  fst (readStatsFile (Samples.predictor_host false 0 0 None) Samples.self0
         Samples.world0)
  = Raise (FileNotFoundError "output/bonsai-fixed/stats-testing.txt")
  /\ fst (readStatsFile (Samples.predictor_host false 0 0 None) Samples.self0
            {| files := {[ "output/bonsai-fixed/stats-testing.txt"
                           := EmptyString ]};
               trace := [] |})
     = Raise IndexError.
Proof.
  split.
  - destruct (readStatsFile_outcomes (Samples.predictor_host false 0 0 None)
                Samples.self0 Samples.world0) as (_ & H & _).
    rewrite H; reflexivity.
  - destruct (readStatsFile_outcomes (Samples.predictor_host false 0 0 None)
                Samples.self0
                {| files := {[ "output/bonsai-fixed/stats-testing.txt"
                               := EmptyString ]};
                   trace := [] |}) as (_ & _ & H & _).
    apply (H EmptyString); reflexivity.
Defined.

(** *** The MinGW build *)

(** No name [gccPath] is bound in [predictor.py]: the module binds [os],
    [subprocess], [Common], [Util] and [Predictor], and the assignment in
    [buildForMingw] reads the bare name. *)
Lemma gccPath_unbound : load_global "gccPath" = Raise (NameError "gccPath").
Proof. reflexivity. Qed.

(** With a compiler root configured [buildForMingw] raises [NameError]
    before it opens the log or calls the build tool. *)
Lemma buildForMingw_gccPath_set {F : Type} (h : Host F) (c : Common)
    (self : Self) (w : World) :
  gccPath_set c = true ->
  buildForMingw h c self w = (Raise (NameError "gccPath"), w).
Proof.
  intros H. unfold buildForMingw, bind, lift, mingw_env. rewrite H.
  reflexivity.
Qed.

(** Without one, the build tool is called with a copy of [os.environ]. *)
Lemma buildForMingw_gccPath_unset {F : Type} (h : Host F) (c : Common)
    (self : Self) (w : World) (st : Z) (files' : gmap string string) :
  gccPath_set c = false ->
  subprocess_call h ["mimg32-make.exe"] (Some (environ h))
    (gccbuild_log h self) (logged (gccbuild_log h self) w)
  = Ret (st, files') ->
  buildForMingw h c self w
  = (Ret (negb (st =? 1)),
     after_call w [] (gccbuild_log h self) ["mimg32-make.exe"]
       (Some (environ h)) st files').
Proof.
  intros H Hc. apply buildForMingw_spec; [|exact Hc].
  unfold mingw_env. rewrite H. reflexivity.
Qed.

(** C9 at a configured compiler root: with [Common.gccPath] set to
    [C:\MinGW\bin] the MinGW build raises [NameError] for [gccPath]; no
    build is invoked, with the root prepended to [PATH] or without. With
    [Common.gccPath] at [None] the same host calls [mimg32-make.exe] with
    the unchanged environment. *)
Theorem buildForMingw_raises_NameError :
  buildForMingw (Samples.predictor_host true 0 0 None)
    Samples.common_mingw_gcc Samples.self0 Samples.world0
  = (Raise (NameError "gccPath"), Samples.world0)
  /\ trace (snd (buildForMingw (Samples.predictor_host true 0 0 None)
                   Samples.common_mingw Samples.self0 Samples.world0))
     = [OpenWrite "out/gccbuild.txt";
        Call ["mimg32-make.exe"]
          (Some (environ (Samples.predictor_host true 0 0 None)));
        Print success_text].
Proof. split; vm_compute; reflexivity. Qed.

End PredictorSpec.

(** ** More about the sweep *)

Module DriverExtras.
Import Py SeeDotDev MoreTerms ListFacts StringFacts.

Lemma for_each_app {S A : Type} (l1 l2 : list A) (body : A -> M S unit)
    (w : S) :
  for_each (l1 ++ l2) body w
  = match for_each l1 body w with
    | (Ret _, w1) => for_each l2 body w1
    | (Raise e, w1) => (Raise e, w1)
    end.
Proof.
  revert w. induction l1 as [|x l1 IH]; intros w; [reflexivity|].
  simpl. unfold bind. destruct (body x w) as [[[]|e] w1]; [|reflexivity].
  apply IH.
Qed.

Section Sweep.
Variables (h : Host) (cfg : Config) (a : Args).

Lemma body_main_raises (p : Point) (w : World) (b : option string)
    (e : exn) :
  bitwidth_block cfg a (p_encoding p) = Ret b ->
  main_run h (main_args h cfg a p) = Raise e ->
  exists w',
    runMainDriver_body h cfg a p w = (Raise e, w')
    /\ main_runs (trace w') = main_runs (trace w) ++ [main_args h cfg a p].
Proof.
  intros Hb Hm.
  unfold runMainDriver_body, bind, print, emit, modify, lift.
  rewrite Hb, Hm. eexists. split; [reflexivity|]. cbn.
  rewrite !DriverSpec.main_runs_app. cbn. rewrite !List.app_nil_r.
  reflexivity.
Qed.

(** X1. The sweep stops at the first point whose [main.Main] run raises:
    the exception leaves [runMainDriver], the points before it and the
    failing point itself were started, and no later point is. *)
Theorem sweep_stops_at_first_failure (w : World) (pre post : list Point)
    (p : Point) (e : exn) :
  sweep a = pre ++ p :: post ->
  (forall q, In q pre ->
     returns (bitwidth_block cfg a (p_encoding q)) = true
     /\ main_run h (main_args h cfg a q) = Ret tt) ->
  returns (bitwidth_block cfg a (p_encoding p)) = true ->
  main_run h (main_args h cfg a p) = Raise e ->
  exists w',
    runMainDriver h cfg a w = (Raise e, w')
    /\ main_runs (trace w')
       = main_runs (trace w) ++ map (main_args h cfg a) (pre ++ [p]).
Proof.
  intros Hs Hpre Hb Hm. unfold runMainDriver. rewrite Hs, for_each_app.
  destruct (DriverSpec.for_each_returns h cfg a pre w Hpre)
    as (w1 & E1 & T1 & _).
  rewrite E1.
  destruct (bitwidth_block cfg a (p_encoding p)) as [b|] eqn:Eb;
    [|discriminate].
  destruct (body_main_raises p w1 b e Eb Hm) as (w2 & E2 & T2).
  exists w2. simpl. unfold bind at 1. rewrite E2. split; [reflexivity|].
  rewrite T2, T1, List.map_app, <- List.app_assoc. reflexivity.
Qed.

(** X2. When one of the five axes is empty there is nothing to sweep:
    [runMainDriver] returns at once and leaves the world as it was. *)
Theorem empty_axis_runs_nothing (w : World) :
  algo a = [] \/ encoding a = [] \/ dataset a = [] \/ target a = []
  \/ maximisingMetric a = [] ->
  sweep a = [] /\ runMainDriver h cfg a w = (Ret tt, w).
Proof.
  intros Hempty.
  assert (Hnil : sweep a = []).
  { pose proof (DriverSpec.sweep_length a) as Hlen.
    destruct (sweep a) as [|x l]; [reflexivity|]. exfalso.
    destruct Hempty as [H|[H|[H|[H|H]]]]; rewrite H in Hlen; simpl in Hlen;
      lia. }
  split; [exact Hnil|]. unfold runMainDriver. rewrite Hnil. reflexivity.
Qed.

End Sweep.

Lemma sweep_stops_at_first_failure_witness :
  exists w',
    runMainDriver MoreSamples.protonn_fails Samples.config16
      (parseArgs Samples.raw_two_by_two) initial
    = (Raise (Exception "model not found"), w')
    /\ map (fun m => (m_algo m, m_encoding m)) (main_runs (trace w'))
       = [("bonsai", "fixed"); ("bonsai", "float"); ("protonn", "fixed")].
Proof.
  destruct (sweep_stops_at_first_failure MoreSamples.protonn_fails
              Samples.config16 (parseArgs Samples.raw_two_by_two) initial
              (firstn 2 (sweep (parseArgs Samples.raw_two_by_two)))
              (skipn 3 (sweep (parseArgs Samples.raw_two_by_two)))
              {| p_algo := "protonn"; p_encoding := "fixed";
                 p_dataset := "cifar-binary"; p_target := "x86";
                 p_maximisingMetric := "acc"; p_wordLength := 16 |}
              (Exception "model not found")) as (w' & E & T).
  - reflexivity.
  - intros q [<-|[<-|[]]]; split; reflexivity.
  - reflexivity.
  - reflexivity.
  - exists w'. split; [exact E|]. rewrite T. reflexivity.
Defined.

Lemma empty_axis_runs_nothing_witness :
  sweep (parseArgs MoreSamples.raw_no_encoding) = []
  /\ runMainDriver Samples.linux_host Samples.config16
       (parseArgs MoreSamples.raw_no_encoding) initial = (Ret tt, initial).
Proof.
  apply (empty_axis_runs_nothing Samples.linux_host Samples.config16
           (parseArgs MoreSamples.raw_no_encoding) initial).
  right. left. reflexivity.
Defined.

(** *** No point twice *)

Lemma NoDup_map_injective {A B : Type} (f : A -> B) (l : list A) :
  (forall x y, f x = f y -> x = y) -> NoDup l -> NoDup (map f l).
Proof.
  intros Hinj. induction 1 as [|x l Hx Hnd IH]; simpl; constructor;
    [|exact IH].
  intros Hin. apply list_elem_of_In, in_map_iff in Hin as (y & Hy & Hin).
  apply Hinj in Hy. subst y. apply Hx, list_elem_of_In, Hin.
Qed.

(** Blocks that can be told apart by a projection [g] do not overlap. *)
Lemma NoDup_flat_map_proj {A B : Type} (f : A -> list B) (g : B -> A)
    (l : list A) :
  NoDup l ->
  (forall x, NoDup (f x)) ->
  (forall x z, In z (f x) -> g z = x) ->
  NoDup (flat_map f l).
Proof.
  intros Hl Hf Hg. induction Hl as [|x l Hx Hnd IH]; simpl; [constructor|].
  apply NoDup_app. split; [apply Hf|]. split; [|exact IH].
  intros z Hz Hz'. apply list_elem_of_In in Hz.
  apply list_elem_of_In, in_flat_map in Hz' as (y & Hy & Hz').
  apply Hg in Hz. apply Hg in Hz'. apply Hx, list_elem_of_In. congruence.
Qed.

Lemma NoDup_product6 {A B C D E G : Type} (la : list A) (lb : list B)
    (lc : list C) (ld : list D) (le : list E) (lg : list G) :
  NoDup la -> NoDup lb -> NoDup lc -> NoDup ld -> NoDup le -> NoDup lg ->
  NoDup (product6 la lb lc ld le lg).
Proof.
  intros Ha Hb Hc Hd He Hg. unfold product6.
  apply (NoDup_flat_map_proj _ (fun t => fst (fst (fst (fst (fst t))))));
    [exact Ha| |].
  - intros a.
    apply (NoDup_flat_map_proj _ (fun t => snd (fst (fst (fst (fst t))))));
      [exact Hb| |].
    + intros b.
      apply (NoDup_flat_map_proj _ (fun t => snd (fst (fst (fst t)))));
        [exact Hc| |].
      * intros c.
        apply (NoDup_flat_map_proj _ (fun t => snd (fst (fst t))));
          [exact Hd| |].
        -- intros d.
           apply (NoDup_flat_map_proj _ (fun t => snd (fst t)));
             [exact He| |].
           ++ intros e. apply NoDup_map_injective; [|exact Hg].
              intros x y [= ->]. reflexivity.
           ++ intros e z Hz. apply in_map_iff in Hz as (g & <- & _).
              reflexivity.
        -- intros d z Hz. apply in_flat_map in Hz as (e & _ & Hz).
           apply in_map_iff in Hz as (g & <- & _). reflexivity.
      * intros c z Hz. apply in_flat_map in Hz as (d & _ & Hz).
        apply in_flat_map in Hz as (e & _ & Hz).
        apply in_map_iff in Hz as (g & <- & _). reflexivity.
    + intros b z Hz. apply in_flat_map in Hz as (c & _ & Hz).
      apply in_flat_map in Hz as (d & _ & Hz).
      apply in_flat_map in Hz as (e & _ & Hz).
      apply in_map_iff in Hz as (g & <- & _). reflexivity.
  - intros a z Hz. apply in_flat_map in Hz as (b & _ & Hz).
    apply in_flat_map in Hz as (c & _ & Hz).
    apply in_flat_map in Hz as (d & _ & Hz).
    apply in_flat_map in Hz as (e & _ & Hz).
    apply in_map_iff in Hz as (g & <- & _). reflexivity.
Qed.

Lemma NoDup_map_injective_on {A B : Type} (f : A -> B) (l : list A) :
  (forall x y, In x l -> In y l -> f x = f y -> x = y) ->
  NoDup l -> NoDup (map f l).
Proof.
  intros Hinj Hnd. induction Hnd as [|x l Hx Hnd IH]; simpl; constructor.
  - intros Hin. apply list_elem_of_In, in_map_iff in Hin as (y & Hy & Hin).
    apply Hinj in Hy; [|right; exact Hin|left; reflexivity].
    subst y. apply Hx, list_elem_of_In, Hin.
  - apply IH. intros y z Hy Hz. apply Hinj; right; assumption.
Qed.

Lemma In_firstn {A : Type} (k : nat) (l : list A) (x : A) :
  In x (firstn k l) -> In x l.
Proof.
  intros H. rewrite <- (firstn_skipn k l). apply in_or_app. left. exact H.
Qed.

(** X3. When no axis names a value twice, no point occurs twice in the
    sweep, and every combination is handed to [main.Main] at most once:
    whatever the outcome of [runMainDriver], each of its [main.Main] runs
    is the run of a point of the sweep, and no two of them have the same
    algorithm, encoding, dataset, target and metric. *)
Theorem sweep_has_no_duplicates (a : Args) (h : Host) (cfg : Config)
    (w : World) :
  NoDup (algo a) -> NoDup (encoding a) -> NoDup (dataset a) ->
  NoDup (target a) -> NoDup (maximisingMetric a) ->
  NoDup (sweep a)
  /\ exists runs,
       main_runs (trace (snd (runMainDriver h cfg a w)))
       = main_runs (trace w) ++ runs
       /\ (forall m, In m runs ->
             exists p, In p (sweep a) /\ m = main_args h cfg a p)
       /\ NoDup (map (fun m => (m_algo m, m_encoding m, m_dataset m,
                                m_target m, m_maximisingMetric m)) runs).
Proof.
  intros Ha He Hd Ht Hm.
  assert (Hnd : NoDup (sweep a)).
  { unfold sweep. apply NoDup_map_injective.
    - intros [[[[[a1 e1] d1] t1] m1] w1] [[[[[a2 e2] d2] t2] m2] w2] H.
      injection H as -> -> -> -> -> ->. reflexivity.
    - apply NoDup_product6; try assumption.
      apply NoDup_singleton. }
  split; [exact Hnd|].
  pose proof (DriverSpec.for_each_prefix h cfg a (sweep a) w) as Hp.
  unfold runMainDriver.
  destruct (for_each (sweep a) (runMainDriver_body h cfg a) w) as [r w'].
  destruct Hp as (k & _ & T & _). cbn [snd].
  exists (firstn k (map (main_args h cfg a) (sweep a))).
  split; [exact T|]. split.
  - intros m Hin. apply In_firstn, in_map_iff in Hin as (p & <- & Hin).
    exists p. auto.
  - rewrite <- firstn_map, List.map_map.
    apply (sublist_NoDup _ (map (fun p => (p_algo p, p_encoding p,
                                           p_dataset p, p_target p,
                                           p_maximisingMetric p))
                              (sweep a))); [|apply sublist_take].
    apply NoDup_map_injective_on; [|exact Hnd].
    intros p q Hp Hq Heq.
    apply DriverSpec.sweep_in in Hp as (_ & _ & _ & _ & _ & Wp).
    apply DriverSpec.sweep_in in Hq as (_ & _ & _ & _ & _ & Wq).
    destruct p, q. simpl in *. congruence.
Qed.

Lemma sweep_has_no_duplicates_witness :
  NoDup (sweep (parseArgs Samples.raw_two_by_two))
  /\ exists runs,
       main_runs (trace (snd (runMainDriver MoreSamples.protonn_fails
                                Samples.config16
                                (parseArgs Samples.raw_two_by_two) initial)))
       = runs
       /\ NoDup (map (fun m => (m_algo m, m_encoding m, m_dataset m,
                                m_target m, m_maximisingMetric m)) runs).
Proof.
  destruct (sweep_has_no_duplicates (parseArgs Samples.raw_two_by_two)
              MoreSamples.protonn_fails Samples.config16 initial)
    as (Hnd & runs & E & _ & Hruns);
    [simpl;
     repeat (constructor;
             [rewrite list_elem_of_In; simpl; intuition discriminate|]);
     constructor..|].
  split; [exact Hnd|]. exists runs. split; [exact E|exact Hruns].
Defined.

(** *** The directories and input files of a point *)

Lemma plain_name_inv (s : string) :
  plain_name s = true ->
  s <> EmptyString
  /\ startswith (String sep EmptyString) s = false
  /\ endswith_char sep s = false.
Proof.
  unfold plain_name. intros H.
  apply andb_true_iff in H as [H H3]. apply andb_true_iff in H as [H1 H2].
  apply negb_true_iff in H1, H2, H3.
  split; [|auto]. intros ->. discriminate.
Qed.

(** Joining a plain name to a path that does not end with the separator
    puts one separator between them. *)
Lemma posix_join_step_plain (path b : string) :
  path <> EmptyString ->
  endswith_char sep path = false ->
  plain_name b = true ->
  posix_join_step path b = path +:+ String sep b
  /\ path +:+ String sep b <> EmptyString
  /\ endswith_char sep (path +:+ String sep b) = false.
Proof.
  intros Hp He Hb. apply plain_name_inv in Hb as (Hne & Hs & Hend).
  split; [|split].
  - unfold posix_join_step. rewrite Hs, He, orb_false_r.
    destruct (String.eqb_spec path EmptyString); [contradiction|reflexivity].
  - apply PredictorSpec.app_not_empty. discriminate.
  - rewrite PredictorSpec.endswith_char_app by discriminate.
    simpl. destruct b; [contradiction|exact Hend].
Qed.

(** X4. On a POSIX host, for an algorithm and a dataset that are plain
    names, the model directory of a point is [model/<algo>/<dataset>] and
    its input files are [train<s>.npy] and [test<s>.npy] in
    [datasets/<algo>/<dataset>], where the suffix [<s>] is [_onnx] for the
    ONNX source and empty for every other source. *)
Theorem main_args_posix_paths (h : Host) (cfg : Config) (a : Args)
    (p : Point) :
  (forall x l, os_path_join h x l = posix_join x l) ->
  plain_name (p_algo p) = true ->
  plain_name (p_dataset p) = true ->
  m_modelDir (main_args h cfg a p)
  = "model/" +:+ p_algo p +:+ "/" +:+ p_dataset p
  /\ m_trainingInput (main_args h cfg a p)
     = "datasets/" +:+ p_algo p +:+ "/" +:+ p_dataset p +:+ "/train"
       +:+ source_update cfg a +:+ ".npy"
  /\ m_testingInput (main_args h cfg a p)
     = "datasets/" +:+ p_algo p +:+ "/" +:+ p_dataset p +:+ "/test"
       +:+ source_update cfg a +:+ ".npy"
  /\ (source a <> Source_onnx cfg -> source_update cfg a = EmptyString)
  /\ (source a = Source_onnx cfg -> source_update cfg a = "_onnx").
Proof.
  intros Hj Ha Hd.
  assert (Hdir : forall root,
             root <> EmptyString -> endswith_char sep root = false ->
             posix_join root [p_algo p; p_dataset p]
             = root +:+ String sep (p_algo p) +:+ String sep (p_dataset p)
             /\ posix_join root [p_algo p; p_dataset p] <> EmptyString
             /\ endswith_char sep (posix_join root [p_algo p; p_dataset p])
                = false).
  { intros root Hr He. unfold posix_join. simpl fold_left.
    destruct (posix_join_step_plain root (p_algo p) Hr He Ha)
      as (E1 & N1 & S1).
    rewrite E1.
    destruct (posix_join_step_plain _ (p_dataset p) N1 S1 Hd)
      as (E2 & N2 & S2).
    rewrite E2. split; [apply app_assoc|]. split; assumption. }
  assert (Hfile : forall dir name,
             dir <> EmptyString -> endswith_char sep dir = false ->
             startswith (String sep EmptyString) name = false ->
             posix_join dir [name] = dir +:+ String sep name).
  { intros dir name Hn He Hs. unfold posix_join. simpl fold_left.
    unfold posix_join_step. rewrite Hs, He, orb_false_r.
    destruct (String.eqb_spec dir EmptyString); [contradiction|reflexivity]. }
  destruct (Hdir "model") as (Em & _ & _); [discriminate|reflexivity|].
  destruct (Hdir "datasets") as (Ed & Nd & Sd); [discriminate|reflexivity|].
  unfold main_args. cbn [m_modelDir m_trainingInput m_testingInput].
  rewrite !Hj. unfold modelProcessedDir, datasetProcessedDir.
  fold (source_update cfg a).
  split; [rewrite Em; reflexivity|].
  split.
  { rewrite (Hfile _ ("train" +:+ source_update cfg a +:+ ".npy") Nd Sd
               eq_refl), Ed, !app_assoc.
    reflexivity. }
  split.
  { rewrite (Hfile _ ("test" +:+ source_update cfg a +:+ ".npy") Nd Sd
               eq_refl), Ed, !app_assoc.
    reflexivity. }
  unfold source_update. split.
  - intros Hne. destruct (String.eqb_spec (source a) (Source_onnx cfg));
      [contradiction|reflexivity].
  - intros ->. rewrite String.eqb_refl. reflexivity.
Qed.

Lemma main_args_posix_paths_witness :
  m_modelDir (main_args Samples.linux_host Samples.config16
                (parseArgs Samples.raw_single) Samples.fixed_point)
  = "model/bonsai/cifar-binary"
  /\ m_trainingInput (main_args Samples.linux_host Samples.config16
                        (parseArgs Samples.raw_single) Samples.fixed_point)
     = "datasets/bonsai/cifar-binary/train.npy".
Proof.
  destruct (main_args_posix_paths Samples.linux_host Samples.config16
              (parseArgs Samples.raw_single) Samples.fixed_point)
    as (Hm & Ht & _); try reflexivity.
  split; [exact Hm|exact Ht].
Defined.

(** *** The [--load-sf] flag *)

Lemma for_each_ext {S A : Type} (l : list A) (f g : A -> M S unit) (w : S) :
  (forall x w, f x w = g x w) -> for_each l f w = for_each l g w.
Proof.
  intros H. revert w. induction l as [|x l IH]; intros w; [reflexivity|].
  simpl. unfold bind. rewrite H. destruct (g x w) as [[[]|e] w1];
    [apply IH|reflexivity].
Qed.

(** X5. With [config.wordLength] at 8, 16 or 32 the [--load-sf] flag
    changes nothing in the sweep: it is read only by the handler of a
    failed derivation, and it is not handed to [main.Main]. *)
Theorem load_sf_is_ignored (h : Host) (cfg : Config) (a : Args) (b : bool)
    (w : World) :
  wordLength cfg = 8 \/ wordLength cfg = 16 \/ wordLength cfg = 32 ->
  runMainDriver h cfg (with_load_sf b a) w = runMainDriver h cfg a w.
Proof.
  intros Hw. unfold runMainDriver.
  change (sweep (with_load_sf b a)) with (sweep a).
  apply for_each_ext. intros p w0. unfold runMainDriver_body.
  change (main_args h cfg (with_load_sf b a) p) with (main_args h cfg a p).
  assert (Hd : exists t, derive_bitwidth cfg (p_encoding p) = Ret t).
  { unfold derive_bitwidth.
    destruct (String.eqb (p_encoding p) (Encoding_floatt cfg)); [eauto|].
    destruct Hw as [-> | [-> | ->]]; simpl; eauto. }
  destruct Hd as (t & Hd). unfold bitwidth_block. rewrite Hd. reflexivity.
Qed.

Lemma load_sf_is_ignored_witness :
  runMainDriver Samples.linux_host Samples.config16
    (with_load_sf true (parseArgs Samples.raw_two_by_two)) initial
  = runMainDriver Samples.linux_host Samples.config16
      (parseArgs Samples.raw_two_by_two) initial.
Proof.
  apply (load_sf_is_ignored Samples.linux_host Samples.config16
           (parseArgs Samples.raw_two_by_two) true initial).
  right. left. reflexivity.
Defined.

(** *** The whole sweep, and the whole run *)

Lemma firstn_app_exact {A : Type} (l1 l2 : list A) :
  firstn (length l1) (l1 ++ l2) = l1.
Proof.
  induction l1 as [|x l1 IH]; [reflexivity|]. simpl. rewrite IH.
  reflexivity.
Qed.

(** X15. Whatever stops a sweep, the points for which [main.Main] was
    started are an initial stretch of the enumeration, in its order: no
    point is skipped and none is started after a failure. The sweep returns
    exactly when every pass returns, and then all points were started; it
    raises at the first point whose pass does not return, after starting
    the points before it and, when it is the [main.Main] run that raises,
    that point. *)
Theorem started_points_are_a_prefix (h : Host) (cfg : Config) (a : Args)
    (w : World) :
  exists k : nat,
    (k <= length (sweep a))%nat
    /\ main_runs (trace (snd (runMainDriver h cfg a w)))
       = main_runs (trace w) ++ firstn k (map (main_args h cfg a) (sweep a))
    /\ (fst (runMainDriver h cfg a w) = Ret tt
        <-> forall q, In q (sweep a) -> StageTerms.point_returns h cfg a q)
    /\ (fst (runMainDriver h cfg a w) = Ret tt -> k = length (sweep a))
    /\ (forall e,
          fst (runMainDriver h cfg a w) = Raise e ->
          exists pre p post,
            sweep a = pre ++ p :: post
            /\ (forall q, In q pre -> StageTerms.point_returns h cfg a q)
            /\ ((returns (bitwidth_block cfg a (p_encoding p)) = true
                 /\ main_run h (main_args h cfg a p) = Raise e
                 /\ k = S (length pre))
                \/ (bitwidth_block cfg a (p_encoding p)
                    = Raise AssertionError
                    /\ e = AssertionError
                    /\ k = length pre))).
Proof.
  unfold runMainDriver.
  destruct (DriverSpec.for_each_outcome h cfg a (sweep a) w)
    as [(Hall & w' & E & T)
       |[(pre & p & post & e & w' & Hs & Hpre & Hb & Hm & E & T)
        |(pre & p & post & w' & Hs & Hpre & Hb & E & T)]];
    rewrite E; cbn [fst snd].
  - exists (length (sweep a)). split; [lia|]. split.
    { rewrite T, <- (List.length_map (main_args h cfg a)), firstn_all.
      reflexivity. }
    split; [tauto|]. split; [reflexivity|]. intros e [=].
  - exists (S (length pre)). split.
    { rewrite Hs, List.length_app. simpl. lia. }
    split.
    { rewrite T, Hs.
      change (pre ++ p :: post) with (pre ++ [p] ++ post).
      rewrite List.app_assoc, (List.map_app _ (pre ++ [p]) post).
      replace (S (length pre))
        with (length (map (main_args h cfg a) (pre ++ [p])))
        by (rewrite List.length_map, List.length_app; simpl; lia).
      rewrite firstn_app_exact. reflexivity. }
    split.
    { split; [discriminate|]. intros Hall. exfalso.
      assert (Hin : In p (sweep a))
        by (rewrite Hs; apply in_or_app; right; left; reflexivity).
      destruct (Hall p Hin) as [_ Hret]. congruence. }
    split; [discriminate|].
    intros e' [= <-]. exists pre, p, post.
    split; [exact Hs|]. split; [exact Hpre|]. left. auto.
  - exists (length pre). split.
    { rewrite Hs, List.length_app. simpl. lia. }
    split.
    { rewrite T, Hs, List.map_app.
      rewrite <- (List.length_map (main_args h cfg a) pre).
      rewrite firstn_app_exact. reflexivity. }
    split.
    { split; [discriminate|]. intros Hall. exfalso.
      assert (Hin : In p (sweep a))
        by (rewrite Hs; apply in_or_app; right; left; reflexivity).
      destruct (Hall p Hin) as [Hret _]. rewrite Hb in Hret.
      discriminate. }
    split; [discriminate|].
    intros e' [= <-]. exists pre, p, post.
    split; [exact Hs|]. split; [exact Hpre|]. right. auto.
Qed.

(** On a host on which every pass returns, the two-by-two sweep returns
    and its four points were started. *)
Lemma started_points_are_a_prefix_witness :
  fst (runMainDriver Samples.linux_host Samples.config16
         (parseArgs Samples.raw_two_by_two) initial) = Ret tt
  /\ length (main_runs
               (trace (snd (runMainDriver Samples.linux_host
                              Samples.config16
                              (parseArgs Samples.raw_two_by_two) initial))))
     = 4%nat.
Proof.
  destruct (started_points_are_a_prefix Samples.linux_host Samples.config16
              (parseArgs Samples.raw_two_by_two) initial)
    as (k & _ & T & Hiff & Hk & _).
  assert (Hret : fst (runMainDriver Samples.linux_host Samples.config16
                        (parseArgs Samples.raw_two_by_two) initial)
                 = Ret tt).
  { apply Hiff. intros q Hq. split; [|reflexivity].
    unfold bitwidth_block, derive_bitwidth. simpl.
    destruct (String.eqb (p_encoding q) "float"); reflexivity. }
  split; [exact Hret|]. rewrite T, (Hk Hret). reflexivity.
Defined.

Lemma body_assertion_raises (h : Host) (cfg : Config) (a : Args) (p : Point)
    (w : World) :
  bitwidth_block cfg a (p_encoding p) = Raise AssertionError ->
  exists w',
    runMainDriver_body h cfg a p w = (Raise AssertionError, w')
    /\ main_runs (trace w') = main_runs (trace w).
Proof.
  intros Hb. unfold runMainDriver_body, bind, print, emit, modify, lift.
  rewrite Hb. eexists. split; [reflexivity|]. cbn.
  rewrite !DriverSpec.main_runs_app. cbn. rewrite !List.app_nil_r.
  reflexivity.
Qed.

(** X16. With [--load-sf] given and [config.wordLength] none of 8, 16 and
    32, a sweep runs its leading floating-point points and stops at the
    first point of another encoding: [AssertionError] leaves
    [runMainDriver] before [main.Main] is run for that point, and no later
    point is run. *)
Theorem load_sf_stops_the_sweep (h : Host) (cfg : Config) (a : Args)
    (w : World) (pre post : list Point) (p : Point) :
  load_sf a = true ->
  wordLength cfg <> 8 -> wordLength cfg <> 16 -> wordLength cfg <> 32 ->
  sweep a = pre ++ p :: post ->
  (forall q, In q pre ->
     p_encoding q = Encoding_floatt cfg
     /\ main_run h (main_args h cfg a q) = Ret tt) ->
  p_encoding p <> Encoding_floatt cfg ->
  exists w',
    runMainDriver h cfg a w = (Raise AssertionError, w')
    /\ main_runs (trace w')
       = main_runs (trace w) ++ map (main_args h cfg a) pre.
Proof.
  intros Hsf H8 H16 H32 Hs Hpre Hp. unfold runMainDriver.
  rewrite Hs, for_each_app.
  destruct (DriverSpec.for_each_returns h cfg a pre w) as (w1 & E1 & T1 & _).
  { intros q Hq. destruct (Hpre q Hq) as [Hf Hm]. split; [|exact Hm].
    unfold bitwidth_block. rewrite Hf, DriverSpec.derive_bitwidth_float.
    reflexivity. }
  rewrite E1.
  assert (Hb : bitwidth_block cfg a (p_encoding p) = Raise AssertionError).
  { unfold bitwidth_block.
    rewrite (DriverSpec.derive_bitwidth_fixed cfg _ Hp).
    destruct (Z.eqb_spec (wordLength cfg) 8); [contradiction|].
    destruct (Z.eqb_spec (wordLength cfg) 16); [contradiction|].
    destruct (Z.eqb_spec (wordLength cfg) 32); [contradiction|].
    rewrite Hsf. reflexivity. }
  destruct (body_assertion_raises h cfg a p w1 Hb) as (w2 & E2 & T2).
  exists w2. simpl. unfold bind at 1. rewrite E2. split; [reflexivity|].
  rewrite T2, T1. reflexivity.
Qed.

Lemma load_sf_stops_the_sweep_witness :
  exists w',
    runMainDriver Samples.linux_host Samples.config12
      (with_load_sf true (parseArgs MoreSamples.raw_float_first)) initial
    = (Raise AssertionError, w')
    /\ map (fun m => (m_algo m, m_encoding m)) (main_runs (trace w'))
       = [("bonsai", "float")].
Proof.
  destruct (load_sf_stops_the_sweep Samples.linux_host Samples.config12
              (with_load_sf true (parseArgs MoreSamples.raw_float_first))
              initial
              (firstn 1 (sweep (parseArgs MoreSamples.raw_float_first)))
              (skipn 2 (sweep (parseArgs MoreSamples.raw_float_first)))
              Samples.fixed_point) as (w' & E & T);
    try reflexivity; try discriminate.
  - intros q [<-|[]]. split; reflexivity.
  - exists w'. split; [exact E|]. rewrite T. reflexivity.
Defined.

Lemma check_returns_last (h : Host) (cfg : Config) (w : World) :
  (exists x, In x (msbuildPathOptions cfg) /\ isfile h x = true) ->
  exists pre p post,
    msbuildPathOptions cfg = pre ++ p :: post
    /\ isfile h p = true
    /\ (forall q, In q post -> isfile h q = false)
    /\ checkMSBuildPath h cfg w
       = (Ret tt, {| config_msbuildPath := Some p; trace := trace w |}).
Proof.
  intros Hex. apply existsb_exists in Hex.
  destruct (DriverSpec.last_true_split _ _ Hex)
    as (pre & p & post & E & Fp & Hpost).
  exists pre, p, post. repeat split; try assumption.
  unfold checkMSBuildPath.
  rewrite E, DriverSpec.checkMSBuildPath_loop_app.
  destruct (checkMSBuildPath_loop h pre false (config_msbuildPath w))
    as [f' m'].
  simpl. rewrite Fp.
  rewrite (DriverSpec.checkMSBuildPath_loop_none h post true (Some p) Hpost).
  reflexivity.
Qed.

(** X17. [checkMSBuildPath] returns exactly when some candidate is a file,
    hence never for an empty list of candidates; when it raises,
    [config.msbuildPath] and everything else is as before, and when it
    returns, [config.msbuildPath] is a candidate that is a file. *)
Theorem checkMSBuildPath_returns_iff (h : Host) (cfg : Config) (w : World) :
  (fst (checkMSBuildPath h cfg w) = Ret tt
   <-> exists x, In x (msbuildPathOptions cfg) /\ isfile h x = true)
  /\ (fst (checkMSBuildPath h cfg w) <> Ret tt ->
      checkMSBuildPath h cfg w
      = (Raise (Exception (not_found_message cfg)), w))
  /\ (fst (checkMSBuildPath h cfg w) = Ret tt ->
      exists x,
        config_msbuildPath (snd (checkMSBuildPath h cfg w)) = Some x
        /\ In x (msbuildPathOptions cfg) /\ isfile h x = true).
Proof.
  destruct (existsb (isfile h) (msbuildPathOptions cfg)) eqn:Ex.
  - pose proof Ex as Hex. apply existsb_exists in Hex.
    destruct (check_returns_last h cfg w Hex)
      as (pre & x & post & E & Fx & _ & Hrun).
    rewrite Hrun. cbn. split; [tauto|]. split; [congruence|].
    intros _. exists x. split; [reflexivity|]. split; [|exact Fx].
    rewrite E. apply in_or_app. right. left. reflexivity.
  - assert (Hnone : forall x, In x (msbuildPathOptions cfg) ->
                              isfile h x = false).
    { intros x Hx. destruct (isfile h x) eqn:Fx; [|reflexivity].
      assert (existsb (isfile h) (msbuildPathOptions cfg) = true)
        by (apply existsb_exists; eauto).
      congruence. }
    rewrite (DriverSpec.checkMSBuildPath_none h cfg w Hnone). cbn.
    split; [|split; [reflexivity|discriminate]].
    split; [discriminate|].
    intros (x & Hx & Fx). rewrite (Hnone x Hx) in Fx. discriminate.
Qed.

Lemma checkMSBuildPath_returns_iff_witness :
  fst (checkMSBuildPath Samples.windows_host Samples.config16 initial)
  = Ret tt.
Proof.
  apply (checkMSBuildPath_returns_iff Samples.windows_host Samples.config16
           initial).
  exists Samples.vs2017. split; [left; reflexivity|reflexivity].
Defined.

(** X18. A run goes through when the logging level is one [logging] knows,
    the host is not Windows or one of the MSBuild candidates is a file,
    and every bit-width block and every [main.Main] run returns: [run]
    returns, and [main.Main] was run once for every point of the sweep, in
    the order of the sweep. *)
Theorem run_goes_through (h : Host) (cfg : Config) (a : Args) (w : World) :
  existsb (String.eqb (log_level h a)) level_names = true ->
  (windows h = false
   \/ exists x, In x (msbuildPathOptions cfg) /\ isfile h x = true) ->
  (forall e, returns (bitwidth_block cfg a e) = true) ->
  (forall m, main_run h m = Ret tt) ->
  exists w',
    run h cfg a w = (Ret tt, w')
    /\ main_runs (trace w')
       = main_runs (trace w) ++ map (main_args h cfg a) (sweep a).
Proof.
  intros Hl Hc Hb Hm. unfold run. unfold bind at 1. unfold setLogLevel.
  rewrite Hl. unfold emit at 1. unfold modify at 1.
  unfold bind at 1.
  set (w0 := {| config_msbuildPath := config_msbuildPath w;
                trace := trace w ++ [BasicConfig (log_level h a)] |}).
  assert (Hcheck : exists w1,
             (if windows h then checkMSBuildPath h cfg else ret tt) w0
             = (Ret tt, w1)
             /\ main_runs (trace w1) = main_runs (trace w)).
  { assert (Hw0 : main_runs (trace w0) = main_runs (trace w)).
    { unfold w0. cbn. rewrite DriverSpec.main_runs_app. cbn.
      apply List.app_nil_r. }
    destruct (windows h) eqn:Hwin.
    - destruct Hc as [Hc|Hc]; [discriminate|].
      destruct (check_returns_last h cfg w0 Hc)
        as (pre & x & post & _ & _ & _ & Hrun).
      rewrite Hrun. eexists. split; [reflexivity|]. exact Hw0.
    - exists w0. split; [reflexivity|exact Hw0]. }
  destruct Hcheck as (w1 & E1 & T1). rewrite E1.
  unfold bind, setGlobalFlags, emit, modify.
  match goal with
  | |- context [runMainDriver h cfg a ?w2] =>
      destruct (DriverSpec.for_each_returns h cfg a (sweep a) w2)
        as (w' & E & T & _)
  end.
  { intros p _. split; [apply Hb|apply Hm]. }
  exists w'. unfold runMainDriver. rewrite E. split; [reflexivity|].
  rewrite T. cbn. rewrite DriverSpec.main_runs_app, T1. cbn.
  rewrite List.app_nil_r. reflexivity.
Qed.

Lemma run_goes_through_witness :
  exists w',
    run Samples.windows_host Samples.config16
      (parseArgs Samples.raw_two_by_two) initial = (Ret tt, w')
    /\ length (main_runs (trace w')) = 4%nat.
Proof.
  destruct (run_goes_through Samples.windows_host Samples.config16
              (parseArgs Samples.raw_two_by_two) initial)
    as (w' & E & T).
  - reflexivity.
  - right. exists Samples.vs2017. split; [left; reflexivity|reflexivity].
  - intros e. unfold bitwidth_block, derive_bitwidth. simpl.
    destruct (String.eqb e "float"); reflexivity.
  - intros m. reflexivity.
  - exists w'. split; [exact E|]. rewrite T. reflexivity.
Defined.

End DriverExtras.

(** ** The scratch and output directories *)

Module DirsExtras.
Import Py SeeDotDevDirs MoreTerms.

Lemma removed_app (t1 t2 : list event) :
  removed (t1 ++ t2) = removed t1 ++ removed t2.
Proof.
  induction t1 as [|e t1 IH]; [reflexivity|].
  destruct e; simpl; rewrite IH; reflexivity.
Qed.

Section Dirs.
Context {FS : Type}.
Variables (ops : FsOps FS) (t : Targets).

(** The output block removes nothing and leaves [config.tempdir] alone. *)
Lemma setup_outdir_removes_nothing (outdir : option string)
    (target : list string) (td : string) (w : World FS) :
  removed (trace (snd (setup_outdir ops t outdir target td w)))
  = removed (trace w)
  /\ config_tempdir (snd (setup_outdir ops t outdir target td w))
     = config_tempdir w.
Proof.
  unfold setup_outdir. destruct outdir as [d|].
  - unfold bind, assert_isdir, set_outdir, modify.
    destruct (isdir ops d (fs w)); cbn; auto.
  - unfold bind, set_outdir, modify, fs_call. cbn.
    destruct (makedirs ops _ true (fs w)) as [r fs']. cbn.
    rewrite removed_app. cbn. rewrite List.app_nil_r. auto.
Qed.

(** X6. The only directory [parseArgs] ever removes is [temp], and only
    when [--tempdir] is not given and [temp] exists: a scratch directory
    named by the user is never removed, whatever the outcome. *)
Theorem only_temp_is_removed (tempdir outdir : option string)
    (target : list string) (w : World FS) :
  removed (trace (snd (parseArgs_dirs ops t tempdir outdir target w)))
  = removed (trace w)
    ++ match tempdir with
       | Some _ => []
       | None => if path_exists ops "temp" (fs w) then ["temp"] else []
       end.
Proof.
  unfold parseArgs_dirs. unfold bind at 1. destruct tempdir as [d|].
  - unfold setup_tempdir, bind, assert_isdir, set_tempdir, modify, ret.
    destruct (isdir ops d (fs w)); cbn.
    + rewrite (proj1 (setup_outdir_removes_nothing _ _ _ _)). cbn.
      rewrite List.app_nil_r. reflexivity.
    + rewrite List.app_nil_r. reflexivity.
  - unfold setup_tempdir, bind, set_tempdir, modify, get, ret, fs_call. cbn.
    destruct (path_exists ops "temp" (fs w)); cbn.
    + destruct (rmtree ops "temp" (fs w)) as [[[]|e] fs1]; cbn.
      * destruct (makedirs ops "temp" false fs1) as [[[]|e] fs2]; cbn.
        -- rewrite (proj1 (setup_outdir_removes_nothing _ _ _ _)). cbn.
           rewrite !removed_app. cbn. rewrite List.app_nil_r. reflexivity.
        -- rewrite !removed_app. cbn. rewrite List.app_nil_r. reflexivity.
      * rewrite removed_app. reflexivity.
    + destruct (makedirs ops "temp" false (fs w)) as [[[]|e] fs2]; cbn.
      * rewrite (proj1 (setup_outdir_removes_nothing _ _ _ _)). cbn.
        rewrite !removed_app. reflexivity.
      * rewrite !removed_app. reflexivity.
Qed.

(** X7. With both [--tempdir] and [--outdir] given, [parseArgs] changes
    nothing on disk: it returns with the two names in [config] when both
    are directories, and raises [AssertionError] otherwise, with
    [config.tempdir] already assigned when it is the output directory that
    is missing. *)
Theorem given_directories_are_checked_only (td od : string)
    (target : list string) (w : World FS) :
  parseArgs_dirs ops t (Some td) (Some od) target w
  = if isdir ops td (fs w) then
      if isdir ops od (fs w)
      then (Ret tt, {| fs := fs w; config_tempdir := Some td;
                       config_outdir := Some od; trace := trace w |})
      else (Raise AssertionError,
            {| fs := fs w; config_tempdir := Some td;
               config_outdir := config_outdir w; trace := trace w |})
    else (Raise AssertionError, w).
Proof.
  unfold parseArgs_dirs, setup_tempdir, setup_outdir, bind, assert_isdir,
    set_tempdir, set_outdir, modify, ret.
  destruct (isdir ops td (fs w)); cbn; [|reflexivity].
  destruct (isdir ops od (fs w)); reflexivity.
Qed.

(** X8. Without [--outdir] the output directory is [arduinodump/arduino]
    only when Arduino is the one target selected and [m3dump] only when M3
    is; for any other selection, also one that names Arduino or M3 among
    several targets, it is [arduino] under the scratch directory. The
    directory chosen is assigned to [config.outdir] and then created with
    [exist_ok=True], and nothing else is done. *)
Theorem default_outdir_by_target (target : list string) (td : string)
    (w : World FS) :
  (target = [Target_arduino t] ->
   default_outdir ops t target td = os_path_join ops "arduinodump" ["arduino"])
  /\ (target = [Target_m3 t] -> Target_m3 t <> Target_arduino t ->
      default_outdir ops t target td = os_path_join ops "m3dump" [])
  /\ (length target <> 1%nat ->
      default_outdir ops t target td = os_path_join ops td ["arduino"])
  /\ (forall x, target = [x] -> x <> Target_arduino t -> x <> Target_m3 t ->
      default_outdir ops t target td = os_path_join ops td ["arduino"])
  /\ setup_outdir ops t None target td w
     = (fst (makedirs ops (default_outdir ops t target td) true (fs w)),
        {| fs := snd (makedirs ops (default_outdir ops t target td) true
                        (fs w));
           config_tempdir := config_tempdir w;
           config_outdir := Some (default_outdir ops t target td);
           trace := trace w
                    ++ [Makedirs (default_outdir ops t target td) true] |}).
Proof.
  unfold default_outdir, is_only. split; [|split; [|split; [|split]]].
  - intros ->. rewrite String.eqb_refl. reflexivity.
  - intros -> Hne. rewrite String.eqb_refl.
    destruct (String.eqb_spec (Target_m3 t) (Target_arduino t));
      [contradiction|reflexivity].
  - intros Hlen. destruct target as [|x [|y l]]; try reflexivity.
    contradiction Hlen. reflexivity.
  - intros x -> Ha Hm.
    destruct (String.eqb_spec x (Target_arduino t)); [contradiction|].
    destruct (String.eqb_spec x (Target_m3 t)); [contradiction|reflexivity].
  - unfold setup_outdir, bind, set_outdir, modify, fs_call. cbn.
    destruct (makedirs ops _ true (fs w)) as [r fs']. reflexivity.
Qed.

End Dirs.

Lemma only_temp_is_removed_example :
  removed (trace (snd (parseArgs_dirs MoreSamples.set_fs MoreSamples.targets
                         None None ["x86"]
                         (MoreSamples.dirs0 {[ "temp"; "data" ]}))))
  = ["temp"]
  /\ removed (trace (snd (parseArgs_dirs MoreSamples.set_fs
                            MoreSamples.targets (Some "data") None ["x86"]
                            (MoreSamples.dirs0 {[ "temp"; "data" ]}))))
     = [].
Proof. split; vm_compute; reflexivity. Qed.

Lemma default_outdir_by_target_witness :
  default_outdir MoreSamples.set_fs MoreSamples.targets ["arduino"] "temp"
  = "arduinodump/arduino"
  /\ default_outdir MoreSamples.set_fs MoreSamples.targets
       ["arduino"; "x86"] "temp"
     = "temp/arduino".
Proof.
  destruct (default_outdir_by_target MoreSamples.set_fs MoreSamples.targets
              ["arduino"] "temp" (MoreSamples.dirs0 ∅)) as (H1 & _).
  destruct (default_outdir_by_target MoreSamples.set_fs MoreSamples.targets
              ["arduino"; "x86"] "temp" (MoreSamples.dirs0 ∅))
    as (_ & _ & H2 & _).
  split; [apply H1; reflexivity|apply H2; discriminate].
Defined.

End DirsExtras.

(** ** More about the predictor *)

Module PredictorExtras.
Import Py Predictor PredictorTerms MoreTerms StringFacts.

Lemma calls_app (t1 t2 : list event) :
  calls (t1 ++ t2) = calls t1 ++ calls t2.
Proof.
  induction t1 as [|e t1 IH]; [reflexivity|].
  destruct e; simpl; rewrite IH; reflexivity.
Qed.

Lemma opened_app (t1 t2 : list event) :
  opened (t1 ++ t2) = opened t1 ++ opened t2.
Proof.
  induction t1 as [|e t1 IH]; [reflexivity|].
  destruct e; simpl; rewrite IH; reflexivity.
Qed.

Section Stages.
Context {F : Type}.
Variables (h : Host F) (c : Common) (self : Self).

(** [call_logged], whether the child returns or cannot be started. *)
Lemma call_logged_spec (logFile : string) (args : list string)
    (env : option (gmap string string)) (w : World) :
  call_logged h logFile args env w
  = match subprocess_call h args env logFile (logged logFile w) with
    | Ret (st, files') =>
        (Ret st, {| files := files';
                    trace := trace w ++ [OpenWrite logFile; Call args env] |})
    | Raise e =>
        (Raise e, {| files := logged logFile w;
                     trace := trace w ++ [OpenWrite logFile; Call args env] |})
    end.
Proof.
  unfold call_logged, logged, bind, emit, modify, get, ret, raise. cbn.
  destruct (subprocess_call h args env logFile _) as [[st files']|e]; cbn;
    rewrite <- List.app_assoc; reflexivity.
Qed.

Lemma build_outcome_adds (st : Z) (w : World) :
  calls (trace (snd (build_outcome st w))) = calls (trace w)
  /\ opened (trace (snd (build_outcome st w))) = opened (trace w).
Proof.
  rewrite PredictorSpec.build_outcome_spec. cbn.
  rewrite calls_app, opened_app. cbn. rewrite !List.app_nil_r. auto.
Qed.

Ltac count_calls :=
  cbn; rewrite ?calls_app, ?opened_app; cbn; rewrite ?List.app_nil_r.

(** The build stage calls nothing, or its one tool with its one log; it
    has called the tool whenever it returns. *)
Lemma build_calls (w : World) :
  exists n : nat,
    (n <= 1)%nat
    /\ calls (trace (snd (build h c self w)))
       = calls (trace w) ++ firstn n [build_args h c]
    /\ opened (trace (snd (build h c self w)))
       = opened (trace w) ++ firstn n [build_log h c self]
    /\ (returns (fst (build h c self w)) = true -> n = 1%nat).
Proof.
  unfold build, build_args, build_log.
  destruct (windows h); [destruct (mingw c)|]; cbn [andb].
  - unfold buildForMingw. unfold bind at 1. unfold lift.
    destruct (mingw_env h c) as [env|e].
    + exists 1%nat. unfold bind. rewrite call_logged_spec.
      destruct (subprocess_call h _ _ _ _) as [[st files']|e];
        [rewrite PredictorSpec.build_outcome_spec|]; count_calls;
        repeat split; auto.
    + exists 0%nat. count_calls. repeat split; auto. discriminate.
  - exists 1%nat. unfold buildForWindows, bind, print_noend, emit, modify.
    rewrite call_logged_spec.
    destruct (subprocess_call h _ _ _ _) as [[st files']|e];
      [rewrite PredictorSpec.build_outcome_spec|]; count_calls;
      repeat split; auto.
  - exists 1%nat. unfold buildForLinux, bind, print_noend, emit, modify.
    rewrite call_logged_spec.
    destruct (subprocess_call h _ _ _ _) as [[st files']|e];
      [rewrite PredictorSpec.build_outcome_spec|]; count_calls;
      repeat split; auto.
Qed.

Lemma readStatsFile_adds (w : World) :
  calls (trace (snd (readStatsFile h self w))) = calls (trace w)
  /\ opened (trace (snd (readStatsFile h self w))) = opened (trace w)
  /\ files (snd (readStatsFile h self w)) = files w.
Proof.
  rewrite PredictorSpec.readStatsFile_spec.
  destruct (files w !! statsFile h self); count_calls; auto.
Qed.

(** An execute function, whether the artifact returns or cannot be
    started. *)
Lemma execute_with_cases (exeFile : string) (w : World) :
  execute_with h self exeFile w
  = match subprocess_call h (exec_args self exeFile) None (exec_log h self)
            (logged (exec_log h self) w) with
    | Ret (st, files') =>
        let w1 := after_call w [Print "Execution..."] (exec_log h self)
                    (exec_args self exeFile) None st files' in
        if st =? 1 then (Ret None, w1)
        else match readStatsFile h self w1 with
             | (Ret acc, w2) => (Ret (Some acc), w2)
             | (Raise e, w2) => (Raise e, w2)
             end
    | Raise e =>
        (Raise e,
         {| files := logged (exec_log h self) w;
            trace := trace w ++ [Print "Execution...";
                                 OpenWrite (exec_log h self);
                                 Call (exec_args self exeFile) None] |})
    end.
Proof.
  destruct (subprocess_call h (exec_args self exeFile) None (exec_log h self)
              (logged (exec_log h self) w)) as [[st files']|e] eqn:Ec.
  - apply PredictorSpec.execute_with_spec, Ec.
  - unfold execute_with, bind, print_noend, emit, modify.
    rewrite call_logged_spec.
    change (os_path_join h (outputDir self) ["exec.txt"])
      with (exec_log h self).
    change [exeFile; algo self; version self; datasetType self]
      with (exec_args self exeFile).
    change (logged (exec_log h self) _) with (logged (exec_log h self) w).
    rewrite Ec. cbn. rewrite <- List.app_assoc. reflexivity.
Qed.

(** The execute stage calls the artifact once, whatever comes of it. *)
Lemma execute_calls (w : World) :
  calls (trace (snd (execute h c self w)))
  = calls (trace w) ++ [exec_args self (exe_file h c)]
  /\ opened (trace (snd (execute h c self w)))
     = opened (trace w) ++ [exec_log h self].
Proof.
  assert (H : forall exeFile,
             calls (trace (snd (execute_with h self exeFile w)))
             = calls (trace w) ++ [exec_args self exeFile]
             /\ opened (trace (snd (execute_with h self exeFile w)))
                = opened (trace w) ++ [exec_log h self]).
  { intros exeFile. rewrite execute_with_cases.
    destruct (subprocess_call h _ _ _ _) as [[st files']|e];
      [|count_calls; auto].
    cbv zeta. destruct (st =? 1); [unfold after_call; count_calls; auto|].
    match goal with
    | |- context [readStatsFile h self ?w1] =>
        destruct (readStatsFile_adds w1) as (Hc & Ho & _);
        destruct (readStatsFile h self w1) as [[acc|e] w2]
    end; cbn in Hc, Ho |- *; rewrite Hc, Ho; unfold after_call;
      count_calls; auto. }
  unfold execute, exe_file, executeForMingw, executeForWindows,
    executeForLinux.
  destruct (windows h); [destruct (mingw c)|]; apply H.
Qed.

(** X9. A run calls each tool at most once and in order: the build tool
    first, with its log opened, then the artifact, with the execution log
    opened; nothing is called a second time. A run that returns a metric
    has called both, and a run that returns [None] has called the build
    tool. *)
Theorem run_calls_each_tool_once (w : World) :
  exists n : nat,
    (n <= 2)%nat
    /\ calls (trace (snd (run h c self w)))
       = calls (trace w)
         ++ firstn n [build_args h c; exec_args self (exe_file h c)]
    /\ opened (trace (snd (run h c self w)))
       = opened (trace w) ++ firstn n [build_log h c self; exec_log h self]
    /\ (forall f, fst (run h c self w) = Ret (Some f) -> n = 2%nat)
    /\ (fst (run h c self w) = Ret None -> (1 <= n)%nat).
Proof.
  destruct (build_calls w) as (n & Hn & Hc & Ho & Hr).
  unfold run, bind.
  destruct (build h c self w) as [[[|]|e] w1]; cbn in Hc, Ho, Hr |- *.
  - pose proof (Hr eq_refl) as ->.
    destruct (execute_calls w1) as (Hc2 & Ho2).
    destruct (execute h c self w1) as [[acc|e] w2]; cbn in Hc2, Ho2 |- *;
      exists 2%nat; rewrite Hc2, Ho2, Hc, Ho, <- !List.app_assoc;
      repeat split; auto; discriminate.
  - pose proof (Hr eq_refl) as ->. exists 1%nat.
    repeat split; auto; discriminate.
  - exists n. split; [lia|]. split; [|split; [|split; discriminate]].
    + rewrite Hc. destruct n as [|[|n]]; [reflexivity|reflexivity|lia].
    + rewrite Ho. destruct n as [|[|n]]; [reflexivity|reflexivity|lia].
Qed.

End Stages.

Lemma run_calls_each_tool_once_witness :
  calls (trace (snd (run (Samples.predictor_host false 0 0
                            (Some Samples.stats_text))
                       Samples.common_msbuild Samples.self0 Samples.world0)))
  = [["make"]; ["./Predictor"; "bonsai"; "fixed"; "testing"]].
Proof.
  destruct (run_calls_each_tool_once
              (Samples.predictor_host false 0 0 (Some Samples.stats_text))
              Samples.common_msbuild Samples.self0 Samples.world0)
    as (n & _ & Hc & _ & Hsome & _).
  rewrite Hc, (Hsome Samples.f_0_9231); reflexivity.
Defined.

Section Failures.
Context {F : Type}.
Variables (h : Host F) (c : Common) (self : Self).

(** X10. When the build tool cannot be started (MSBuild or [make]; the
    exception is that of [subprocess.call]), [run] does not return [None]:
    the exception leaves [run], the execute stage is not entered, and the
    build log, which was opened first, is left empty, whatever it held
    before. *)
Theorem unstartable_build_tool_raises (w : World) (e : exn) :
  (windows h && mingw c)%bool = false ->
  subprocess_call h (build_args h c) None (build_log h c self)
    (logged (build_log h c self) w) = Raise e ->
  run h c self w
  = (Raise e,
     {| files := logged (build_log h c self) w;
        trace := trace w ++ [Print "Build...";
                             OpenWrite (build_log h c self);
                             Call (build_args h c) None] |})
  /\ files (snd (run h c self w)) !! build_log h c self = Some EmptyString.
Proof.
  intros Hp Hc.
  assert (Hrun : run h c self w
                 = (Raise e,
                    {| files := logged (build_log h c self) w;
                       trace := trace w ++ [Print "Build...";
                                            OpenWrite (build_log h c self);
                                            Call (build_args h c) None] |})).
  { unfold run, build, build_args, build_log in *.
    destruct (windows h); [destruct (mingw c); [discriminate|]|];
      cbn [andb] in Hc |- *.
    - unfold buildForWindows, bind, print_noend, emit, modify.
      rewrite call_logged_spec.
      change (logged (os_path_join h (outputDir self) ["msbuild.txt"]) _)
        with (logged (msbuild_log h self) w).
      change (os_path_join h (outputDir self) ["msbuild.txt"])
        with (msbuild_log h self).
      change (subprocess_call h _ None (msbuild_log h self)
                (logged (msbuild_log h self) w))
        with (subprocess_call h (msbuild_args c) None (msbuild_log h self)
                (logged (msbuild_log h self) w)).
      rewrite Hc. cbn. rewrite <- List.app_assoc. reflexivity.
    - unfold buildForLinux, bind, print_noend, emit, modify.
      rewrite call_logged_spec.
      change (logged (os_path_join h (outputDir self) ["msbuild.txt"]) _)
        with (logged (msbuild_log h self) w).
      change (os_path_join h (outputDir self) ["msbuild.txt"])
        with (msbuild_log h self).
      rewrite Hc. cbn. rewrite <- List.app_assoc. reflexivity. }
  split; [exact Hrun|]. rewrite Hrun. cbn. unfold logged.
  apply lookup_insert_eq.
Qed.

Lemma execute_exe_file : execute h c self = execute_with h self (exe_file h c).
Proof.
  unfold execute, exe_file, executeForMingw, executeForWindows,
    executeForLinux.
  destruct (windows h); [destruct (mingw c)|]; reflexivity.
Qed.

(** What [run] returns once the build succeeded and the artifact returned
    a code other than 1: what the stats file then holds decides. *)
Lemma run_after_success (w w1 : World) (st : Z)
    (files' : gmap string string) :
  build h c self w = (Ret true, w1) ->
  subprocess_call h (exec_args self (exe_file h c)) None (exec_log h self)
    (logged (exec_log h self) w1) = Ret (st, files') ->
  st <> 1 ->
  fst (run h c self w)
  = match files' !! statsFile h self with
    | None => Raise (FileNotFoundError (statsFile h self))
    | Some text =>
        match parse_stats h text with
        | Ret f => Ret (Some f)
        | Raise e => Raise e
        end
    end.
Proof.
  intros Hb Hc Hst. rewrite (PredictorSpec.run_build_true h c self w w1 Hb).
  rewrite execute_exe_file, execute_with_cases, Hc. cbv zeta.
  destruct (Z.eqb_spec st 1); [contradiction|].
  rewrite PredictorSpec.readStatsFile_spec. unfold after_call. cbn [files].
  destruct (files' !! statsFile h self) as [text|]; [|reflexivity].
  destruct (parse_stats h text); reflexivity.
Qed.

(** X11. When the build succeeded and the artifact returned a code other
    than 1 but left no stats file, [run] does not return [None]: it raises
    [FileNotFoundError] for the stats file. *)
Theorem missing_stats_file_raises (w w1 : World) (st : Z)
    (files' : gmap string string) :
  build h c self w = (Ret true, w1) ->
  subprocess_call h (exec_args self (exe_file h c)) None (exec_log h self)
    (logged (exec_log h self) w1) = Ret (st, files') ->
  st <> 1 ->
  files' !! statsFile h self = None ->
  fst (run h c self w) = Raise (FileNotFoundError (statsFile h self)).
Proof.
  intros Hb Hc Hst Hf. rewrite (run_after_success w w1 st files' Hb Hc Hst).
  rewrite Hf. reflexivity.
Qed.

(** X12. [run] does not check that the stats file is the artifact's own:
    when the artifact returns a code other than 1 and changes no file, a
    stats file that was there before the run (left by an earlier one) is
    read and its metric returned. *)
Theorem stale_stats_file_is_read (w w1 : World) (st : Z) (text : string) :
  build h c self w = (Ret true, w1) ->
  subprocess_call h (exec_args self (exe_file h c)) None (exec_log h self)
    (logged (exec_log h self) w1)
  = Ret (st, logged (exec_log h self) w1) ->
  st <> 1 ->
  statsFile h self <> exec_log h self ->
  files w1 !! statsFile h self = Some text ->
  fst (run h c self w)
  = match parse_stats h text with
    | Ret f => Ret (Some f)
    | Raise e => Raise e
    end.
Proof.
  intros Hb Hc Hst Hne Hf. rewrite (run_after_success w w1 st _ Hb Hc Hst).
  unfold logged at 1. rewrite lookup_insert_ne by congruence.
  rewrite Hf. reflexivity.
Qed.

End Failures.

Lemma unstartable_build_tool_raises_witness :
  run MoreSamples.no_tools Samples.common_msbuild Samples.self0
    Samples.world0
  = (Raise (FileNotFoundError "make"),
     {| files := {[ "out/msbuild.txt" := EmptyString ]};
        trace := [Print "Build..."; OpenWrite "out/msbuild.txt";
                  Call ["make"] None] |}).
Proof.
  destruct (unstartable_build_tool_raises MoreSamples.no_tools
              Samples.common_msbuild Samples.self0 Samples.world0
              (FileNotFoundError "make")) as (H & _);
    [reflexivity|reflexivity|].
  rewrite H. reflexivity.
Defined.

Lemma missing_stats_file_raises_witness :
  fst (run (Samples.predictor_host false 0 0 None) Samples.common_msbuild
         Samples.self0 Samples.world0)
  = Raise (FileNotFoundError "output/bonsai-fixed/stats-testing.txt").
Proof.
  apply (missing_stats_file_raises (Samples.predictor_host false 0 0 None)
           Samples.common_msbuild Samples.self0 Samples.world0
           (snd (build (Samples.predictor_host false 0 0 None)
                   Samples.common_msbuild Samples.self0 Samples.world0))
           0
           (logged "out/exec.txt"
              (snd (build (Samples.predictor_host false 0 0 None)
                      Samples.common_msbuild Samples.self0 Samples.world0))));
    [vm_compute; reflexivity|vm_compute; reflexivity|discriminate|
     vm_compute; reflexivity].
Defined.

Lemma stale_stats_file_is_read_witness :
  fst (run (Samples.predictor_host false 0 0 None) Samples.common_msbuild
         Samples.self0
         {| files := {[ "output/bonsai-fixed/stats-testing.txt"
                        := Samples.stats_text ]};
            trace := [] |})
  = Ret (Some Samples.f_0_9231).
Proof.
  rewrite (stale_stats_file_is_read (Samples.predictor_host false 0 0 None)
             Samples.common_msbuild Samples.self0
             {| files := {[ "output/bonsai-fixed/stats-testing.txt"
                            := Samples.stats_text ]};
                trace := [] |}
             (snd (build (Samples.predictor_host false 0 0 None)
                     Samples.common_msbuild Samples.self0
                     {| files := {[ "output/bonsai-fixed/stats-testing.txt"
                                    := Samples.stats_text ]};
                        trace := [] |}))
             0 Samples.stats_text);
    [reflexivity|vm_compute; reflexivity|vm_compute; reflexivity|discriminate|
     discriminate|vm_compute; reflexivity].
Defined.

(** *** The first line of the stats file *)

Lemma no_break_cons (x : ascii) (line : string) :
  contains_char LF (String x line) = false ->
  contains_char CR (String x line) = false ->
  Ascii.eqb x LF = false /\ Ascii.eqb x CR = false
  /\ contains_char LF line = false /\ contains_char CR line = false.
Proof.
  intros Hlf Hcr.
  change (Ascii.eqb LF x || contains_char LF line = false)%bool in Hlf.
  change (Ascii.eqb CR x || contains_char CR line = false)%bool in Hcr.
  apply orb_false_iff in Hlf as [Hx1 Hlf].
  apply orb_false_iff in Hcr as [Hx2 Hcr].
  rewrite Ascii.eqb_sym in Hx1. rewrite Ascii.eqb_sym in Hx2. auto.
Qed.

(** A carriage return ends the first line as a line feed does. *)
Lemma readlines_from_line_cr (line cur rest : string) :
  contains_char LF line = false ->
  contains_char CR line = false ->
  exists more,
    readlines_from cur (line +:+ String CR rest)
    = (cur +:+ line +:+ nl) :: more.
Proof.
  revert cur. induction line as [|x line IH]; intros cur Hlf Hcr.
  - rewrite app_nil_l. simpl.
    destruct rest as [|d rest]; [eauto|]. destruct (Ascii.eqb d LF); eauto.
  - destruct (no_break_cons x line Hlf Hcr) as (Hx1 & Hx2 & Hlf' & Hcr').
    rewrite app_cons. simpl readlines_from. rewrite Hx1, Hx2.
    destruct (IH (cur +:+ String x EmptyString) Hlf' Hcr') as (more & E).
    exists more. rewrite E, !app_assoc. reflexivity.
Qed.

(** A last line without a line end is a line. *)
Lemma readlines_from_last (line cur : string) :
  contains_char LF line = false ->
  contains_char CR line = false ->
  readlines_from cur line
  = match cur +:+ line with EmptyString => [] | s => [s] end.
Proof.
  revert cur. induction line as [|x line IH]; intros cur Hlf Hcr.
  - rewrite app_nil_r. destruct cur; reflexivity.
  - destruct (no_break_cons x line Hlf Hcr) as (Hx1 & Hx2 & Hlf' & Hcr').
    simpl readlines_from. rewrite Hx1, Hx2.
    rewrite (IH _ Hlf' Hcr'), app_assoc. reflexivity.
Qed.

Lemma strip_blank (s : string) : blank s = true -> strip s = EmptyString.
Proof.
  unfold strip. induction s as [|x s IH]; intros H; [reflexivity|].
  simpl in H. apply andb_true_iff in H as [Hx Hs].
  simpl lstrip. rewrite Hx. apply IH, Hs.
Qed.

Section FirstLine.
Context {F : Type}.
Variable h : Host F.

(** X13. The way the first line of the stats file ends does not matter: a
    first line [line] ended by a line feed, by a carriage return and a line
    feed, by a carriage return alone, or by the end of the file gives
    [float(line.strip())] all the same, whatever follows it. *)
Theorem first_line_any_line_end (line rest : string) :
  contains_char LF line = false ->
  contains_char CR line = false ->
  parse_stats h (line +:+ String LF rest) = parsed h line
  /\ parse_stats h (line +:+ String CR (String LF rest)) = parsed h line
  /\ parse_stats h (line +:+ String CR rest) = parsed h line
  /\ (line <> EmptyString -> parse_stats h line = parsed h line).
Proof.
  intros Hlf Hcr.
  assert (Hcr_any : forall r, parse_stats h (line +:+ String CR r)
                              = parsed h line).
  { intros r.
    destruct (readlines_from_line_cr line EmptyString r Hlf Hcr)
      as (more & E).
    unfold parse_stats, readlines, parsed. rewrite E, app_nil_l.
    simpl map. rewrite PredictorSpec.strip_app_nl. reflexivity. }
  split; [apply PredictorSpec.parse_stats_first_line; assumption|].
  split; [apply Hcr_any|]. split; [apply Hcr_any|].
  intros Hne. unfold parse_stats, readlines, parsed.
  rewrite (readlines_from_last line EmptyString Hlf Hcr), app_nil_l.
  destruct line; [contradiction|reflexivity].
Qed.

(** X14. The metric has to be on the first line: when the first line is
    blank, [float] is given the empty string, and with a [float] that
    rejects it (as Python's does) the result is [ValueError], also when
    the number stands on the second line. *)
Theorem blank_first_line_is_malformed (line rest : string) :
  contains_char LF line = false ->
  contains_char CR line = false ->
  blank line = true ->
  float_of_str h EmptyString = None ->
  parse_stats h (line +:+ String LF rest) = Raise (ValueError EmptyString).
Proof.
  intros Hlf Hcr Hb Hf.
  rewrite (PredictorSpec.parse_stats_first_line h line rest Hlf Hcr).
  unfold parsed. rewrite (strip_blank line Hb), Hf. reflexivity.
Qed.

End FirstLine.

Lemma first_line_any_line_end_witness :
  parse_stats (Samples.predictor_host false 0 0 None)
    (" 0.9231" +:+ String CR (String LF "12 of 13"))
  = Ret Samples.f_0_9231
  /\ parse_stats (Samples.predictor_host false 0 0 None) "0.9231"
     = Ret Samples.f_0_9231.
Proof.
  destruct (first_line_any_line_end (Samples.predictor_host false 0 0 None)
              " 0.9231" "12 of 13") as (_ & H & _); [reflexivity..|].
  destruct (first_line_any_line_end (Samples.predictor_host false 0 0 None)
              "0.9231" EmptyString) as (_ & _ & _ & H'); [reflexivity..|].
  split; [rewrite H; reflexivity|rewrite H' by discriminate; reflexivity].
Defined.

Lemma blank_first_line_is_malformed_witness :
  parse_stats (Samples.predictor_host false 0 0 None)
    ("  " +:+ String LF "0.9231")
  = Raise (ValueError EmptyString).
Proof.
  apply (blank_first_line_is_malformed
           (Samples.predictor_host false 0 0 None) "  " "0.9231");
    reflexivity.
Defined.

End PredictorExtras.

(** ** The outcome of a run, by the return codes of its two children *)

Module RunSpec.
Import Py Predictor PredictorTerms MoreTerms StageTerms.

Section Outcome.
Context {F : Type}.
Variables (h : Host F) (c : Common) (self : Self).

(** [build], by what the build tool does. *)
Lemma build_cases (w : World) :
  build h c self w
  = match build_env h c with
    | Raise e => (Raise e, w)
    | Ret env =>
        match subprocess_call h (build_args h c) env (build_log h c self)
                (logged (build_log h c self) w) with
        | Ret (st, files') =>
            (Ret (negb (st =? 1)), after_build h c self w env st files')
        | Raise e =>
            (Raise e,
             {| files := logged (build_log h c self) w;
                trace := trace w ++ build_prefix h c
                         ++ [OpenWrite (build_log h c self);
                             Call (build_args h c) env] |})
        end
    end.
Proof.
  unfold after_build, after_call, build, build_env, build_args, build_log,
    build_prefix.
  destruct (windows h); [destruct (mingw c)|]; cbn [andb].
  - unfold buildForMingw. unfold bind at 1. unfold lift.
    destruct (mingw_env h c) as [env|e]; [|reflexivity].
    unfold bind. rewrite PredictorExtras.call_logged_spec.
    change (os_path_join h (outputDir self) ["gccbuild.txt"])
      with (gccbuild_log h self).
    destruct (subprocess_call h _ _ _ _) as [[st files']|e];
      [|reflexivity].
    rewrite PredictorSpec.build_outcome_spec. cbn.
    rewrite <- !List.app_assoc. reflexivity.
  - unfold buildForWindows, bind, print_noend, emit, modify.
    rewrite PredictorExtras.call_logged_spec.
    change (os_path_join h (outputDir self) ["msbuild.txt"])
      with (msbuild_log h self).
    change (logged (msbuild_log h self) _)
      with (logged (msbuild_log h self) w).
    change [msbuildPath c; "Predictor.vcxproj"; "/t:Build";
            "/p:Configuration=Release"; "/p:Platform=x64"]
      with (msbuild_args c).
    destruct (subprocess_call h _ _ _ _) as [[st files']|e].
    + rewrite PredictorSpec.build_outcome_spec. cbn.
      rewrite <- !List.app_assoc. reflexivity.
    + cbn. rewrite <- !List.app_assoc. reflexivity.
  - unfold buildForLinux, bind, print_noend, emit, modify.
    rewrite PredictorExtras.call_logged_spec.
    change (os_path_join h (outputDir self) ["msbuild.txt"])
      with (msbuild_log h self).
    change (logged (msbuild_log h self) _)
      with (logged (msbuild_log h self) w).
    destruct (subprocess_call h _ _ _ _) as [[st files']|e].
    + rewrite PredictorSpec.build_outcome_spec. cbn.
      rewrite <- !List.app_assoc. reflexivity.
    + cbn. rewrite <- !List.app_assoc. reflexivity.
Qed.

(** [execute], by what the artifact does and what it leaves. *)
Lemma execute_cases (w1 : World) :
  execute h c self w1
  = match subprocess_call h (exec_args self (exe_file h c)) None
            (exec_log h self) (logged (exec_log h self) w1) with
    | Ret (st, files') =>
        let w2 := after_execute h c self w1 st files' in
        if st =? 1 then (Ret None, w2)
        else match files' !! statsFile h self with
             | None => (Raise (FileNotFoundError (statsFile h self)), w2)
             | Some text =>
                 (match parse_stats h text with
                  | Ret f => Ret (Some f)
                  | Raise e => Raise e
                  end,
                  {| files := files';
                     trace := trace w2 ++ [OpenRead (statsFile h self)] |})
             end
    | Raise e =>
        (Raise e,
         {| files := logged (exec_log h self) w1;
            trace := trace w1 ++ [Print "Execution...";
                                  OpenWrite (exec_log h self);
                                  Call (exec_args self (exe_file h c))
                                    None] |})
    end.
Proof.
  rewrite PredictorExtras.execute_exe_file, PredictorExtras.execute_with_cases.
  destruct (subprocess_call h _ _ _ _) as [[st files']|e]; [|reflexivity].
  cbv zeta. unfold after_execute. destruct (st =? 1); [reflexivity|].
  rewrite PredictorSpec.readStatsFile_spec. unfold after_call. cbn [files].
  destruct (files' !! statsFile h self) as [text|]; [|reflexivity].
  destruct (parse_stats h text); reflexivity.
Qed.

End Outcome.

(** C10, as the code has it. A stage counts as failed exactly when its
    child process returns code 1. [run] returns [None] when the build tool
    returns 1, and it returns [None] when the build tool returns another
    code and the artifact returns 1: the result is the same [None] in both
    cases. [run] returns a float exactly when the build tool returned a
    code other than 1, the artifact returned a code other than 1, and the
    stats file found afterwards parses to that float; any other code of a
    child, non-zero ones included, counts as success. A child that cannot
    be started, a missing stats file and a stats file that does not parse
    make [run] raise, not return [None]. *)
Theorem run_none_hides_stage {F : Type} (h : Host F) (c : Common)
    (self : Self) (w : World) (env : option (gmap string string)) :
  build_env h c = Ret env ->
  (forall files',
     subprocess_call h (build_args h c) env (build_log h c self)
       (logged (build_log h c self) w) = Ret (1, files') ->
     run h c self w = (Ret None, after_build h c self w env 1 files'))
  /\ (forall st files' files'',
        subprocess_call h (build_args h c) env (build_log h c self)
          (logged (build_log h c self) w) = Ret (st, files') ->
        st <> 1 ->
        subprocess_call h (exec_args self (exe_file h c)) None
          (exec_log h self)
          (logged (exec_log h self) (after_build h c self w env st files'))
        = Ret (1, files'') ->
        run h c self w
        = (Ret None,
           after_execute h c self (after_build h c self w env st files') 1
             files''))
  /\ (forall f,
        fst (run h c self w) = Ret (Some f)
        <-> exists st files' st' files'' text,
              subprocess_call h (build_args h c) env (build_log h c self)
                (logged (build_log h c self) w) = Ret (st, files')
              /\ st <> 1
              /\ subprocess_call h (exec_args self (exe_file h c)) None
                   (exec_log h self)
                   (logged (exec_log h self)
                      (after_build h c self w env st files'))
                 = Ret (st', files'')
              /\ st' <> 1
              /\ files'' !! statsFile h self = Some text
              /\ parse_stats h text = Ret f)
  /\ (forall e,
        subprocess_call h (build_args h c) env (build_log h c self)
          (logged (build_log h c self) w) = Raise e ->
        fst (run h c self w) = Raise e)
  /\ (forall st files' e,
        subprocess_call h (build_args h c) env (build_log h c self)
          (logged (build_log h c self) w) = Ret (st, files') ->
        st <> 1 ->
        subprocess_call h (exec_args self (exe_file h c)) None
          (exec_log h self)
          (logged (exec_log h self) (after_build h c self w env st files'))
        = Raise e ->
        fst (run h c self w) = Raise e)
  /\ (forall st files' st' files'',
        subprocess_call h (build_args h c) env (build_log h c self)
          (logged (build_log h c self) w) = Ret (st, files') ->
        st <> 1 ->
        subprocess_call h (exec_args self (exe_file h c)) None
          (exec_log h self)
          (logged (exec_log h self) (after_build h c self w env st files'))
        = Ret (st', files'') ->
        st' <> 1 ->
        fst (run h c self w)
        = match files'' !! statsFile h self with
          | None => Raise (FileNotFoundError (statsFile h self))
          | Some text =>
              match parse_stats h text with
              | Ret f => Ret (Some f)
              | Raise e => Raise e
              end
          end).
Proof.
  intros Henv.
  assert (Hrun : run h c self w
                 = match subprocess_call h (build_args h c) env
                           (build_log h c self)
                           (logged (build_log h c self) w) with
                   | Ret (st, files') =>
                       if st =? 1
                       then (Ret None, after_build h c self w env st files')
                       else execute h c self
                              (after_build h c self w env st files')
                   | Raise e =>
                       (Raise e,
                        {| files := logged (build_log h c self) w;
                           trace := trace w ++ build_prefix h c
                                    ++ [OpenWrite (build_log h c self);
                                        Call (build_args h c) env] |})
                   end).
  { unfold run, bind. rewrite build_cases, Henv.
    destruct (subprocess_call h (build_args h c) env _ _)
      as [[st files']|e]; [|reflexivity].
    destruct (st =? 1); cbn; [reflexivity|].
    destruct (execute h c self _) as [[acc|e] w2]; reflexivity. }
  split; [|split; [|split; [|split; [|split]]]].
  - intros files' Hb. rewrite Hrun, Hb. reflexivity.
  - intros st files' files'' Hb Hst He. rewrite Hrun, Hb.
    destruct (Z.eqb_spec st 1); [contradiction|].
    rewrite execute_cases, He. reflexivity.
  - intros f. rewrite Hrun. split.
    + destruct (subprocess_call h (build_args h c) env _ _)
        as [[st files']|e] eqn:Hb; [|discriminate].
      destruct (Z.eqb_spec st 1); [discriminate|].
      rewrite execute_cases.
      destruct (subprocess_call h (exec_args self (exe_file h c)) None _ _)
        as [[st' files'']|e] eqn:He; [|discriminate].
      cbv zeta. destruct (Z.eqb_spec st' 1); [discriminate|].
      destruct (files'' !! statsFile h self) as [text|] eqn:Hf;
        [|discriminate].
      cbn [fst]. destruct (parse_stats h text) as [f'|e] eqn:Hp;
        [|discriminate].
      intros [= <-]. exists st, files', st', files'', text.
      repeat split; assumption.
    + intros (st & files' & st' & files'' & text & Hb & Hst & He & Hst'
              & Hf & Hp).
      rewrite Hb. destruct (Z.eqb_spec st 1); [contradiction|].
      rewrite execute_cases, He. cbv zeta.
      destruct (Z.eqb_spec st' 1); [contradiction|].
      rewrite Hf. cbn [fst]. rewrite Hp. reflexivity.
  - intros e Hb. rewrite Hrun, Hb. reflexivity.
  - intros st files' e Hb Hst He. rewrite Hrun, Hb.
    destruct (Z.eqb_spec st 1); [contradiction|].
    rewrite execute_cases, He. reflexivity.
  - intros st files' st' files'' Hb Hst He Hst'. rewrite Hrun, Hb.
    destruct (Z.eqb_spec st 1); [contradiction|].
    rewrite execute_cases, He. cbv zeta.
    destruct (Z.eqb_spec st' 1); [contradiction|].
    destruct (files'' !! statsFile h self); reflexivity.
Qed.

(** A build that returns 1, and an execution that returns 1 after a build
    that returned 0, both end in [None]. *)
Lemma run_none_hides_stage_witness :
  fst (run (Samples.predictor_host false 1 0 (Some Samples.stats_text))
         Samples.common_msbuild Samples.self0 Samples.world0) = Ret None
  /\ fst (run (Samples.predictor_host false 0 1 (Some Samples.stats_text))
            Samples.common_msbuild Samples.self0 Samples.world0) = Ret None
  /\ fst (run (Samples.predictor_host false 0 0 (Some Samples.stats_text))
            Samples.common_msbuild Samples.self0 Samples.world0)
     = Ret (Some Samples.f_0_9231).
Proof.
  split; [|split].
  - destruct (run_none_hides_stage
                (Samples.predictor_host false 1 0 (Some Samples.stats_text))
                Samples.common_msbuild Samples.self0 Samples.world0 None
                eq_refl) as (H & _).
    rewrite (H (logged "out/msbuild.txt" Samples.world0)); reflexivity.
  - destruct (run_none_hides_stage
                (Samples.predictor_host false 0 1 (Some Samples.stats_text))
                Samples.common_msbuild Samples.self0 Samples.world0 None
                eq_refl) as (_ & H & _).
    erewrite (H 0); [reflexivity|reflexivity|discriminate|reflexivity].
  - destruct (run_none_hides_stage
                (Samples.predictor_host false 0 0 (Some Samples.stats_text))
                Samples.common_msbuild Samples.self0 Samples.world0 None
                eq_refl) as (_ & _ & H & _).
    apply H. eexists 0, _, 0, _, Samples.stats_text.
    split; [reflexivity|]. split; [discriminate|].
    split; [reflexivity|]. split; [discriminate|].
    split; vm_compute; reflexivity.
Defined.

(** C10, as the claim has it, fails: with [make] ending with code 2 and
    the artifact killed by a signal (code -11), both stages have failed,
    yet [run] returns a float, read from the stats file an earlier run
    left. *)
Lemma failed_stages_return_a_float :
  fst (run (Samples.predictor_host false 2 (-11) None)
         Samples.common_msbuild Samples.self0 StageSamples.stale_world)
  = Ret (Some Samples.f_0_9231).
Proof. vm_compute. reflexivity. Qed.

End RunSpec.
